(** * Sub-account client of the Incapsula provider

    A shallow embedding of [incapsula/client_subaccount.go]: the form bodies
    built by [AddSubAccount], [sendListSubAccountsRequest] and
    [DeleteSubAccount], the pagination loop of [GetSubAccount], and the way
    the three operations turn a response into a result or an error.

    Conventions.
    - Go's [int] is the 64-bit two's-complement integer; values are [Z] and
      the only arithmetic of the file ([count += 1]) has its wrap-around
      written out ([int_wrap]).
    - A Go [error] is identified with its text (what [Error()] returns),
      since [fmt.Errorf] with the verb [%s] only ever uses that text.
    - A Go result pair [(v, err)] is a Rocq pair of options; [None] is [nil].
    - [url.Values] and [map[string][]string] are [gmap string (list string)].
    - [log.Printf] calls have no influence on results and are left out.

    The first part of the file holds the definitions: the client, the
    vocabulary in which its pagination loop is described, the struct tags
    and the decoding of JSON values that depends on them, and a scripted
    service to run the client against. The second part holds the
    properties. *)

From Stdlib Require Import ZArith String Ascii List DecimalString Lia.
From Stdlib Require DecimalZ.
From stdpp Require Import base option list strings gmap fin_maps.

Local Open Scope Z_scope.
Local Open Scope string_scope.
Local Open Scope list_scope.

(** ** Go primitives used by the client *)

Module Go.

(** The text of a Go [error]. *)
Definition error : Type := string.

Definition int_min : Z := - 2 ^ 63.
Definition int_max : Z := 2 ^ 63 - 1.

(** Two's-complement wrap-around of 64-bit [int] arithmetic. *)
Definition int_wrap (z : Z) : Z := (z + 2 ^ 63) mod 2 ^ 64 - 2 ^ 63.

Definition is_int (z : Z) : Prop := int_min <= z <= int_max.

(** [strconv.Itoa], which is also what [fmt.Sprint] and the verb [%d]
    print for an [int]: decimal digits, a leading [-] when negative. *)
Definition Itoa (z : Z) : string := NilZero.string_of_int (Z.to_int z).

(** [strings.Contains s sub], as a relation and as a test. *)
Definition Contains (s sub : string) : Prop :=
  exists pre post : string, s = pre +:+ sub +:+ post.

Fixpoint HasPrefix (s pre : string) {struct pre} : bool :=
  match pre, s with
  | EmptyString, _ => true
  | String a pre', String b s' => if Ascii.eqb a b then HasPrefix s' pre' else false
  | String _ _, EmptyString => false
  end.

Fixpoint ContainsB (s sub : string) : bool :=
  HasPrefix s sub
  || match s with
     | EmptyString => false
     | String _ s' => ContainsB s' sub
     end.

End Go.

Export Go.

(** ** Data model (lines 12-42 of the source) *)

Definition endpointSubAccountAdd : string := "subaccounts/add".
Definition endpointSubAccountList : string := "accounts/listSubAccounts".
Definition endpointSubAccountDelete : string := "subaccounts/delete".
Definition PAGE_SIZE : Z := 50.

(** [SubAccountPayload]: the payload of a sub-account creation. *)
Record SubAccountPayload : Type := {
  SubAccountName : string;
  RefID : string;
  LogLevel : string;
  ParentID : Z;
  LogsAccountID : Z
}.

(** [SubAccount]: the identifier and the embedded [*SubAccountPayload]
    (a pointer, hence possibly nil). *)
Record SubAccount : Type := {
  SubAccountID : Z;
  EmbeddedPayload : option SubAccountPayload
}.

Record SubAccountAddResponse : Type := {
  AddResponse_SubAccount : SubAccount;
  AddResponse_Res : Z
}.

Record SubAccountListResponse : Type := {
  SubAccounts : list SubAccount;
  ListResponse_Res : Z
}.

(** The struct declared inside [DeleteSubAccount]. *)
Record SubAccountDeleteResponse : Type := {
  DeleteResponse_Res : Z;
  ResMessage : string
}.

(** ** The surroundings of the client

    [PostFormWithHeaders], the client configuration and the operation
    identifiers are declared in other files of the package. The transport is
    modelled as a scripted responder: the outcome of the n-th POST of a run is
    [responder n], and every request is recorded in [sent]. *)

Module Operation.
(** The operation identifier handed to [PostFormWithHeaders]. *)
Inductive t : Type := CreateSubAccount | ReadSubAccount | DeleteSubAccount.
End Operation.

(** [c.config.BaseURL]. *)
Record Client : Type := { BaseURL : string }.

Record Request : Type := {
  req_url : string;
  req_values : gmap string (list string);
  req_operation : Operation.t
}.

(** What reading [resp.Body] with [ioutil.ReadAll] gives: the bytes obtained,
    and the read error if the read failed before the end of the body. *)
Record Response : Type := {
  Body : string;
  ReadErr : option error
}.

(** The result pair of [PostFormWithHeaders]. *)
Inductive PostResult : Type :=
| PostOk (resp : Response)
| PostErr (err : error).

Record World : Type := {
  responder : nat -> PostResult;
  sent : list Request
}.

(** State passing over the world. *)
Definition IO (A : Type) : Type := World -> A * World.

#[export] Instance IO_ret : MRet IO := fun A (a : A) w => (a, w).
#[export] Instance IO_bind : MBind IO :=
  fun A B (k : A -> IO B) (m : IO A) w => let '(a, w') := m w in k a w'.

Definition PostFormWithHeaders (url : string) (values : gmap string (list string))
    (operation : Operation.t) : IO PostResult :=
  fun w =>
    (responder w (length (sent w)),
     {| responder := responder w;
        sent := (sent w ++ [{| req_url := url; req_values := values;
                               req_operation := operation |}])%list |}).

Definition ioutil_ReadAll (resp : Response) : string * option error :=
  (Body resp, ReadErr resp).

(** [json.Unmarshal] into a fresh value of type [T]: the decoded value, or
    the decoder's error. *)
Class Unmarshal (T : Type) : Type := json_Unmarshal : string -> T + error.

(** A world that has sent nothing yet. *)
Definition fresh (r : nat -> PostResult) : World := {| responder := r; sent := [] |}.

(** ** The operations *)

Section Operations.

Context {decodeAdd : Unmarshal SubAccountAddResponse}
        {decodeList : Unmarshal SubAccountListResponse}
        {decodeDelete : Unmarshal SubAccountDeleteResponse}.

(** Lines 48-70: the form body of [AddSubAccount]. *)
Definition AddSubAccount_values (subAccountPayload : SubAccountPayload)
    : gmap string (list string) :=
  let values : gmap string (list string) :=
    {[ "sub_account_name" := [SubAccountName subAccountPayload] ]} in
  let values :=
    if bool_decide (RefID subAccountPayload <> EmptyString)
    then <["ref_id" := [RefID subAccountPayload]]> values else values in
  let values :=
    if bool_decide (ParentID subAccountPayload <> 0)
    then <["parent_id" := [Itoa (ParentID subAccountPayload)]]> values else values in
  let values :=
    if bool_decide (LogsAccountID subAccountPayload <> 0)
    then <["logs_account_id" := [Itoa (LogsAccountID subAccountPayload)]]> values
    else values in
  let values :=
    if bool_decide (LogLevel subAccountPayload <> EmptyString)
    then <["log_level" := [LogLevel subAccountPayload]]> values else values in
  values.

(** [AddSubAccount] (lines 45-103). *)
Definition AddSubAccount (c : Client) (subAccountPayload : SubAccountPayload)
    : IO (option SubAccountAddResponse * option error) :=
  let values := AddSubAccount_values subAccountPayload in
  r ← PostFormWithHeaders (BaseURL c +:+ "/" +:+ endpointSubAccountAdd) values
        Operation.CreateSubAccount;
  match r with
  | PostErr err =>
      mret (None, Some ("Error adding subaccount "
                        +:+ SubAccountName subAccountPayload +:+ ": " +:+ err))
  | PostOk resp =>
      (* the error of the read is overwritten by the one of the decoder *)
      let '(responseBody, _) := ioutil_ReadAll resp in
      match json_Unmarshal responseBody with
      | inr err =>
          mret (None, Some ("Error parsing add subaccount JSON response for subaccount "
                            +:+ SubAccountName subAccountPayload +:+ ": " +:+ err))
      | inl subAccountAddResponse =>
          if bool_decide (AddResponse_Res subAccountAddResponse <> 0)
          then mret (None, Some ("Error from Incapsula service when adding subaccount "
                                 +:+ SubAccountName subAccountPayload +:+ ": "
                                 +:+ responseBody))
          else mret (Some subAccountAddResponse, None)
      end
  end.

(** Lines 133-142: the form body of a page fetch. *)
Definition sendListSubAccountsRequest_values (accountId pageNum : Z)
    : gmap string (list string) :=
  let values : gmap string (list string) := ∅ in
  let values :=
    if bool_decide (accountId <> 0)
    then <["account_id" := [Itoa accountId]]> values else values in
  let values := <["page_num" := [Itoa pageNum]]> values in
  let values := <["page_size" := [Itoa PAGE_SIZE]]> values in
  values.

(** [sendListSubAccountsRequest] (lines 132-167). *)
Definition sendListSubAccountsRequest (c : Client) (accountId pageNum : Z)
    : IO (list SubAccount * option error) :=
  let values := sendListSubAccountsRequest_values accountId pageNum in
  r ← PostFormWithHeaders (BaseURL c +:+ "/" +:+ endpointSubAccountList) values
        Operation.ReadSubAccount;
  match r with
  | PostErr err =>
      mret ([], Some ("Error getting subaccounts for account "
                      +:+ Itoa accountId +:+ ": " +:+ err))
  | PostOk resp =>
      let '(responseBody, _) := ioutil_ReadAll resp in
      match json_Unmarshal responseBody with
      | inr err =>
          mret ([], Some ("Error parsing subaccounts list JSON response for accountid: "
                          +:+ Itoa accountId +:+ " " +:+ err
                          +:+ String "010"%char "response: " +:+ responseBody))
      | inl subAccountListResponse =>
          mret (SubAccounts subAccountListResponse, None)
      end
  end.

(** The inner loop of [GetSubAccount] (lines 119-124): the first entry of
    the page whose identifier is the one looked for. *)
Fixpoint scan_page (subAccounts : list SubAccount) (subAccountID : Z)
    : option SubAccount :=
  match subAccounts with
  | [] => None
  | subAccount :: rest =>
      if bool_decide (SubAccountID subAccount = subAccountID)
      then Some subAccount
      else scan_page rest subAccountID
  end.

(** The [for shouldFetch] loop of [GetSubAccount] (lines 113-127), entered
    with [shouldFetch] true and the page counter [count]. The Go loop has no
    bound of its own; [fuel] bounds the number of iterations here and the
    result is [None] when it is used up before the loop returns. *)
Fixpoint GetSubAccount_loop (fuel : nat) (c : Client)
    (parentAccountID subAccountID count : Z)
    : IO (option (option SubAccount * option error)) :=
  match fuel with
  | O => mret None
  | S fuel' =>
      '(subAccounts, error) ← sendListSubAccountsRequest c parentAccountID count;
      match error with
      | Some err => mret (Some (None, Some err))
      | None =>
          match scan_page subAccounts subAccountID with
          | Some subAccount => mret (Some (Some subAccount, None))
          | None =>
              let shouldFetch :=
                bool_decide (Z.of_nat (length subAccounts) = PAGE_SIZE) in
              let count := int_wrap (count + 1) in
              if shouldFetch
              then GetSubAccount_loop fuel' c parentAccountID subAccountID count
              else mret (Some (None, None))
          end
      end
  end.

(** [GetSubAccount] (lines 106-130). *)
Definition GetSubAccount (fuel : nat) (c : Client) (parentAccountID subAccountID : Z)
    : IO (option (option SubAccount * option error)) :=
  GetSubAccount_loop fuel c parentAccountID subAccountID 0.

(** [DeleteSubAccount] (lines 170-208). *)
Definition DeleteSubAccount (c : Client) (subAccountID : Z) : IO (option error) :=
  r ← PostFormWithHeaders (BaseURL c +:+ "/" +:+ endpointSubAccountDelete)
        {[ "sub_account_id" := [Itoa subAccountID] ]} Operation.DeleteSubAccount;
  match r with
  | PostErr err =>
      mret (Some ("Error deleting subaccount id: " +:+ Itoa subAccountID
                  +:+ ": " +:+ err))
  | PostOk resp =>
      let '(responseBody, _) := ioutil_ReadAll resp in
      match json_Unmarshal responseBody with
      | inr err =>
          mret (Some ("Error parsing delete account JSON response for subaccount id: "
                      +:+ Itoa subAccountID +:+ ": " +:+ err))
      | inl subaccountDeleteResponse =>
          if bool_decide (DeleteResponse_Res subaccountDeleteResponse <> 0)
          then mret (Some ("Error from Incapsula service when deleting subaccount id: "
                           +:+ Itoa subAccountID +:+ ": " +:+ responseBody))
          else mret None
      end
  end.

End Operations.

(** The page number of the i-th fetch of a scan (counting from 0): the
    counter starts at 0 and is incremented with [int] arithmetic. *)
Definition page_number (i : nat) : Z := int_wrap (Z.of_nat i).

(** ** The vocabulary of the pagination loop *)

Section Scan.

Context {decodeList : Unmarshal SubAccountListResponse}.

Variable c : Client.
Variables parentAccountID subAccountID : Z.

(** The result pair of a page fetch, as a function of what the transport
    answered (lines 148-166). *)
Definition page_fetch_result (r : PostResult) : list SubAccount * option error :=
  match r with
  | PostErr err =>
      ([], Some ("Error getting subaccounts for account "
                 +:+ Itoa parentAccountID +:+ ": " +:+ err))
  | PostOk resp =>
      match json_Unmarshal (Body resp) with
      | inr err =>
          ([], Some ("Error parsing subaccounts list JSON response for accountid: "
                     +:+ Itoa parentAccountID +:+ " " +:+ err
                     +:+ String "010"%char "response: " +:+ Body resp))
      | inl subAccountListResponse => (SubAccounts subAccountListResponse, None)
      end
  end.

(** The request of the fetch of page [pageNum]. *)
Definition page_request (pageNum : Z) : Request :=
  {| req_url := BaseURL c +:+ "/" +:+ endpointSubAccountList;
     req_values := sendListSubAccountsRequest_values parentAccountID pageNum;
     req_operation := Operation.ReadSubAccount |}.

(** The world after the requests [rs] have been sent. *)
Definition after (w : World) (rs : list Request) : World :=
  {| responder := responder w; sent := (sent w ++ rs)%list |}.

(** The result of the i-th page fetch made from the world [w] on. *)
Definition outcome (w : World) (i : nat) : list SubAccount * option error :=
  page_fetch_result (responder w (length (sent w) + i)).

(** The requests of the fetches number [j], ..., [j + k - 1] of a scan. *)
Definition page_requests (j k : nat) : list Request :=
  map (fun i => page_request (page_number i)) (seq j k).

(** An outcome after which the loop goes round again: no error, no entry
    with the identifier looked for, exactly [PAGE_SIZE] entries. *)
Definition continues (o : list SubAccount * option error) : bool :=
  match o.2 with
  | Some _ => false
  | None =>
      match scan_page o.1 subAccountID with
      | Some _ => false
      | None => bool_decide (Z.of_nat (length o.1) = PAGE_SIZE)
      end
  end.

(** No entry of the page has the identifier looked for. *)
Definition no_match (subAccounts : list SubAccount) : Prop :=
  Forall (fun subAccount => SubAccountID subAccount <> subAccountID) subAccounts.

(** A page of exactly [PAGE_SIZE] entries. *)
Definition full_page (subAccounts : list SubAccount) : Prop :=
  Z.of_nat (length subAccounts) = PAGE_SIZE.

(** From the world [w] on, the page fetches succeed and return the pages of
    [pages], in this order. *)
Definition serves (w : World) (pages : list (list SubAccount)) : Prop :=
  forall (i : nat) (l : list SubAccount), pages !! i = Some l -> outcome w i = (l, None).

(** The scan started in [w] returns. *)
Definition terminates (w : World) : Prop :=
  exists fuel : nat, (GetSubAccount fuel c parentAccountID subAccountID w).1 <> None.

(** A fetch result that ends the scan: an error, an entry with the
    identifier looked for, or a number of entries other than [PAGE_SIZE]. *)
Definition ends_scan (o : list SubAccount * option error) : Prop :=
  is_Some o.2 \/ ~ no_match o.1 \/ ~ full_page o.1.

(** The same with "fewer than [PAGE_SIZE] entries" as the third case. *)
Definition ends_scan_short (o : list SubAccount * option error) : Prop :=
  is_Some o.2 \/ ~ no_match o.1 \/ Z.of_nat (length o.1) < PAGE_SIZE.

End Scan.

(** ** Struct tags and JSON keys

    The wire names of the fields are not written in the code of the client:
    they are what Go's [reflect] and [encoding/json] packages make of the
    struct tags of lines 18-42 (and 173-176). This part holds the tags as
    they are in the source, and a model of the two library functions that
    read them: [reflect.StructTag.Lookup] and the naming rule of
    [encoding/json] ([parseTag] and [isValidTag] in [typeFields]). *)

Module StructTag.

Definition dquote : ascii := ascii_of_nat 34.
Definition backslash : ascii := ascii_of_nat 92.

(** [s] between double quotes. *)
Definition quoted (s : string) : string :=
  String dquote (s +:+ String dquote EmptyString).

(** Skip leading spaces. *)
Fixpoint skip_spaces (tag : string) : string :=
  match tag with
  | String a tag' => if Ascii.eqb a " " then skip_spaces tag' else tag
  | EmptyString => tag
  end.

(** A byte that may stand in a key: above the space, and none of the colon,
    the double quote and DEL. *)
Definition key_byte (a : ascii) : bool :=
  (32 <? nat_of_ascii a)%nat
  && negb (Ascii.eqb a ":") && negb (Ascii.eqb a dquote)
  && negb (nat_of_ascii a =? 127)%nat.

(** Scan to the colon: the key and what follows it. *)
Fixpoint scan_key (tag : string) : string * string :=
  match tag with
  | String a tag' =>
      if key_byte a
      then let '(k, rest) := scan_key tag' in (String a k, rest)
      else (EmptyString, tag)
  | EmptyString => (EmptyString, EmptyString)
  end.

(** Scan a quoted string, entered after its opening quote: the bytes up to
    the closing quote and what follows that quote; a backslash takes the
    next byte with it. [None] when the closing quote is missing. *)
Fixpoint scan_quoted (tag : string) : option (string * string) :=
  match tag with
  | EmptyString => None
  | String a tag' =>
      if Ascii.eqb a dquote then Some (EmptyString, tag')
      else if Ascii.eqb a backslash then
        match tag' with
        | EmptyString => None
        | String b tag'' =>
            '(v, rest) ← scan_quoted tag''; Some (String a (String b v), rest)
        end
      else '(v, rest) ← scan_quoted tag'; Some (String a v, rest)
  end.

Fixpoint has_byte (a : ascii) (s : string) : bool :=
  match s with
  | EmptyString => false
  | String b s' => Ascii.eqb a b || has_byte a s'
  end.

(** [strconv.Unquote] on a double-quoted string, given the bytes between
    the quotes. Escape sequences are not interpreted here: a value with a
    backslash is answered as one that does not unquote (no tag of the
    source has one). *)
Definition Unquote (inner : string) : option string :=
  if has_byte backslash inner || has_byte "010"%char inner then None else Some inner.

(** The loop of [Lookup]; [fuel] bounds the number of key-value pairs. *)
Fixpoint Lookup_loop (fuel : nat) (tag key : string) : option string :=
  match fuel with
  | O => None
  | S fuel' =>
      let tag := skip_spaces tag in
      match tag with
      | EmptyString => None
      | _ =>
          let '(name, rest) := scan_key tag in
          match name, rest with
          | String _ _, String colon (String q rest') =>
              if Ascii.eqb colon ":" && Ascii.eqb q dquote then
                match scan_quoted rest' with
                | None => None
                | Some (qvalue, tag') =>
                    if String.eqb key name then Unquote qvalue
                    else Lookup_loop fuel' tag' key
                end
              else None
          | _, _ => None
          end
      end
  end.

(** [reflect.StructTag.Lookup]: the value of [key] in the tag, [None] when
    the tag has no such key or is malformed before it. *)
Definition Lookup (tag key : string) : option string :=
  Lookup_loop (String.length tag) tag key.

(** [reflect.StructTag.Get]. *)
Definition Get (tag key : string) : string := default EmptyString (Lookup tag key).

(** [json.parseTag]: the name before the first comma, the options after. *)
Fixpoint parseTag (tag : string) : string * string :=
  match tag with
  | EmptyString => (EmptyString, EmptyString)
  | String a tag' =>
      if Ascii.eqb a "," then (EmptyString, tag')
      else let '(name, opts) := parseTag tag' in (String a name, opts)
  end.

Definition is_letter_or_digit (a : ascii) : bool :=
  let n := nat_of_ascii a in
  ((48 <=? n) && (n <=? 57) || (65 <=? n) && (n <=? 90) || (97 <=? n) && (n <=? 122))%nat.

(** [json.isValidTag], for names of ASCII bytes. *)
Definition isValidTag (name : string) : bool :=
  match name with
  | EmptyString => false
  | _ =>
      forallb (fun a => has_byte a "!#$%&()*+-./:;<=>?@[]^_{|}~ " || is_letter_or_digit a)
              (list_ascii_of_string name)
  end.

(** A field of a struct declaration: its Go name and its tag. *)
Record StructField : Type := { Name : string; Tag : string }.

(** The name under which [encoding/json] reads and writes the field
    ([typeFields]); [None] for a field left out with the tag [-]. *)
Definition json_name (sf : StructField) : option string :=
  let tag := Get (Tag sf) "json" in
  if String.eqb tag "-" then None
  else
    let '(name, _) := parseTag tag in
    let name := if isValidTag name then name else EmptyString in
    Some (if String.eqb name EmptyString then Name sf else name).

(** Whether the field has the option [omitempty]; the options are the
    comma-separated words after the name. *)
Fixpoint has_option (opts opt : string) (fuel : nat) : bool :=
  match fuel with
  | O => false
  | S fuel' =>
      match opts with
      | EmptyString => false
      | _ => let '(name, rest) := parseTag opts in
             String.eqb name opt || has_option rest opt fuel'
      end
  end.

Definition omitempty (sf : StructField) : bool :=
  let opts := (parseTag (Get (Tag sf) "json")).2 in
  has_option opts "omitempty" (String.length opts).

(** [json.foldName], for keys that are compared with names of ASCII bytes
    (all the names of the source are): ASCII letters go to their capital,
    and so do the two other characters that Unicode folds together with an
    ASCII letter, the long s (U+017F, the bytes C5 BF in UTF-8) with S and
    the Kelvin sign (U+212A, the bytes E2 84 AA) with K. Every other byte
    stays: a character outside ASCII folds to no ASCII letter. *)
Fixpoint foldName (s : string) : string :=
  match s with
  | EmptyString => EmptyString
  | String a s1 =>
      let n := nat_of_ascii a in
      let folded := String (if ((97 <=? n) && (n <=? 122))%nat
                            then ascii_of_nat (n - 32) else a) (foldName s1) in
      match s1 with
      | String b s2 =>
          if ((n =? 197) && (nat_of_ascii b =? 191))%nat
          then String "S" (foldName s2)
          else
            match s2 with
            | String b2 s3 =>
                if ((n =? 226) && (nat_of_ascii b =? 132) && (nat_of_ascii b2 =? 170))%nat
                then String "K" (foldName s3)
                else folded
            | EmptyString => folded
            end
      | EmptyString => folded
      end
  end.

(** Equality of keys up to folding, the second chance the decoder gives a
    key that is no field name exactly. *)
Definition EqualFold (s t : string) : bool := String.eqb (foldName s) (foldName t).

End StructTag.

(** ** Decoding of JSON values into the structs

    A model of how [json.Unmarshal] fills a struct from a JSON value that has
    been parsed: every member of an object is looked up among the JSON names
    of the fields (the exact name first, then up to folding), decoded into
    the field when it has one, and skipped otherwise; the value is decoded
    into what the field holds already, so that a member does not undo what
    an earlier member has put into parts it does not name; [null] leaves
    the destination as it is; a value of the wrong kind leaves the field as
    it is and is remembered as an error, the first of which is returned
    when the whole value has been gone through. *)

Module JSON.

Import StructTag.

(** A JSON value. [Number] is a number literal that is an integer, [Float]
    any other number literal. *)
#[local] Unset Elimination Schemes.
Inductive value : Type :=
| Null
| Bool (b : bool)
| Number (n : Z)
| Float (literal : string)
| Str (s : string)
| Array (items : list value)
| Object (members : list (string * value)).
#[local] Set Elimination Schemes.

(** [json.UnmarshalTypeError]: the JSON value, the Go type it does not fit,
    the name of the struct that was being filled and the path of JSON names
    from the root to the field. *)
Record UnmarshalTypeError : Type := {
  Value : string;
  Type_ : string;
  Struct : string;
  Field : string
}.

(** [UnmarshalTypeError.Error]. *)
Definition UnmarshalTypeError_Error (e : UnmarshalTypeError) : error :=
  if String.eqb (Struct e) EmptyString && String.eqb (Field e) EmptyString
  then "json: cannot unmarshal " +:+ Value e +:+ " into Go value of type " +:+ Type_ e
  else "json: cannot unmarshal " +:+ Value e +:+ " into Go struct field "
       +:+ Struct e +:+ "." +:+ Field e +:+ " of type " +:+ Type_ e.

(** Where the decoder is: the struct whose member is being decoded and the
    JSON names from the root down to that member. At the top there is no
    struct and the path is empty. *)
Record errorContext : Type := {
  Struct_Name : string;
  FieldStack : list string
}.

Definition top : errorContext := {| Struct_Name := EmptyString; FieldStack := [] |}.

(** The context of the member [name] of the struct named [struct]. *)
Definition member_context (ctx : errorContext) (struct name : string) : errorContext :=
  {| Struct_Name := struct; FieldStack := FieldStack ctx ++ [name] |}.

(** The type error of a [value] that does not fit the Go type [type]. *)
Definition type_error (ctx : errorContext) (value type : string) : UnmarshalTypeError :=
  {| Value := value; Type_ := type; Struct := Struct_Name ctx;
     Field := String.concat "." (FieldStack ctx) |}.

Definition kind (v : value) : string :=
  match v with
  | Null => "null"
  | Bool _ => "bool"
  | Number _ | Float _ => "number"
  | Str _ => "string"
  | Array _ => "array"
  | Object _ => "object"
  end.

Definition first_error (e1 e2 : option UnmarshalTypeError) : option UnmarshalTypeError :=
  match e1 with Some _ => e1 | None => e2 end.

(** Into a field of type [int]. *)
Definition decode_int (ctx : errorContext) (v : value) (old : Z)
    : Z * option UnmarshalTypeError :=
  match v with
  | Null => (old, None)
  | Number n =>
      if bool_decide (int_min <= n <= int_max) then (n, None)
      else (old, Some (type_error ctx ("number " +:+ Itoa n) "int"))
  | Float literal => (old, Some (type_error ctx ("number " +:+ literal) "int"))
  | _ => (old, Some (type_error ctx (kind v) "int"))
  end.

(** Into a field of type [string]. *)
Definition decode_string (ctx : errorContext) (v : value) (old : string)
    : string * option UnmarshalTypeError :=
  match v with
  | Null => (old, None)
  | Str s => (s, None)
  | _ => (old, Some (type_error ctx (kind v) "string"))
  end.

Section Struct.

(** A struct type [T] whose fields are named by [F]: the declarations of
    the fields, and the decoding of a value into one field. *)
Context {T F : Type}.
Variable fields : list (F * StructField).
Variable set : errorContext -> F -> value -> T -> T * option UnmarshalTypeError.

(** The key is the JSON name of the declaration up to folding. *)
Definition folds_to (key : string) (d : F * StructField) : bool :=
  match json_name d.2 with
  | Some name => EqualFold name key
  | None => false
  end.

(** The declaration of the field a key of an object stands for: the first
    field with exactly this JSON name, or else the first one whose name is
    the key up to folding. *)
Definition declaration_of_key (key : string) : option (F * StructField) :=
  match find (fun d => bool_decide (json_name d.2 = Some key)) fields with
  | Some d => Some d
  | None => find (folds_to key) fields
  end.

(** The field a key of an object stands for. *)
Definition field_of_key (key : string) : option F := fst <$> declaration_of_key key.

(** The JSON name of that field. *)
Definition name_of_key (key : string) : string :=
  default EmptyString (d ← declaration_of_key key; json_name d.2).

(** One member of an object, into the struct named [struct]. *)
Definition decode_member (struct : string) (ctx : errorContext)
    (st : T * option UnmarshalTypeError) (m : string * value)
    : T * option UnmarshalTypeError :=
  match field_of_key m.1 with
  | Some f =>
      let '(t, e) := set (member_context ctx struct (name_of_key m.1)) f m.2 st.1 in
      (t, first_error st.2 e)
  | None => st
  end.

Definition decode_members (struct : string) (ctx : errorContext)
    (members : list (string * value)) (t : T) : T * option UnmarshalTypeError :=
  fold_left (decode_member struct ctx) members (t, None).

(** A value into a destination of the struct type named [struct], which
    prints as [type]. *)
Definition decode_struct (struct type : string) (ctx : errorContext) (v : value) (t : T)
    : T * option UnmarshalTypeError :=
  match v with
  | Null => (t, None)
  | Object members => decode_members struct ctx members t
  | _ => (t, Some (type_error ctx (kind v) type))
  end.

End Struct.

(** *** The structs of the client, with their tags *)

Inductive PayloadField : Type :=
  FSubAccountName | FRefID | FLogLevel | FParentID | FLogsAccountID.

(** Lines 37-41. The tag of [LogsAccountID] has a quote too many in the
    source and is kept so. *)
Definition SubAccountPayload_fields : list (PayloadField * StructField) :=
  [ (FSubAccountName,
     {| Name := "SubAccountName"; Tag := "json:" +:+ quoted "sub_account_name" |});
    (FRefID,
     {| Name := "RefID"; Tag := "json:" +:+ quoted "ref_id,omitempty" |});
    (FLogLevel,
     {| Name := "LogLevel"; Tag := "json:" +:+ quoted "log_level,omitempty" |});
    (FParentID,
     {| Name := "ParentID"; Tag := "json:" +:+ quoted "parent_id,omitempty" |});
    (FLogsAccountID,
     {| Name := "LogsAccountID";
        Tag := "json:" +:+ quoted "logs_account_id" +:+ ",omitempty"
               +:+ String dquote EmptyString |}) ].

Definition zero_SubAccountPayload : SubAccountPayload :=
  {| SubAccountName := EmptyString; RefID := EmptyString; LogLevel := EmptyString;
     ParentID := 0; LogsAccountID := 0 |}.

Definition set_SubAccountPayload (ctx : errorContext) (f : PayloadField) (v : value)
    (p : SubAccountPayload) : SubAccountPayload * option UnmarshalTypeError :=
  match f with
  | FSubAccountName =>
      let '(x, e) := decode_string ctx v (SubAccountName p) in
      ({| SubAccountName := x; RefID := RefID p; LogLevel := LogLevel p;
          ParentID := ParentID p; LogsAccountID := LogsAccountID p |}, e)
  | FRefID =>
      let '(x, e) := decode_string ctx v (RefID p) in
      ({| SubAccountName := SubAccountName p; RefID := x; LogLevel := LogLevel p;
          ParentID := ParentID p; LogsAccountID := LogsAccountID p |}, e)
  | FLogLevel =>
      let '(x, e) := decode_string ctx v (LogLevel p) in
      ({| SubAccountName := SubAccountName p; RefID := RefID p; LogLevel := x;
          ParentID := ParentID p; LogsAccountID := LogsAccountID p |}, e)
  | FParentID =>
      let '(x, e) := decode_int ctx v (ParentID p) in
      ({| SubAccountName := SubAccountName p; RefID := RefID p; LogLevel := LogLevel p;
          ParentID := x; LogsAccountID := LogsAccountID p |}, e)
  | FLogsAccountID =>
      let '(x, e) := decode_int ctx v (LogsAccountID p) in
      ({| SubAccountName := SubAccountName p; RefID := RefID p; LogLevel := LogLevel p;
          ParentID := ParentID p; LogsAccountID := x |}, e)
  end.

(** The fields of [SubAccount] for the decoder (lines 18-21): its own, and
    those of the embedded payload, which has no tag and whose fields are
    therefore read as fields of [SubAccount] itself. *)
Inductive SubAccountField : Type :=
| FSubAccountID
| FPromoted (f : PayloadField).

Definition SubAccount_fields : list (SubAccountField * StructField) :=
  (FSubAccountID, {| Name := "SubAccountID"; Tag := "json:" +:+ quoted "sub_account_id" |})
  :: map (fun d => (FPromoted d.1, d.2)) SubAccountPayload_fields.

Definition zero_SubAccount : SubAccount :=
  {| SubAccountID := 0; EmbeddedPayload := None |}.

(** A member for a promoted field goes through the embedded pointer, which
    is allocated when it is nil. *)
Definition set_SubAccount (ctx : errorContext) (f : SubAccountField) (v : value)
    (s : SubAccount) : SubAccount * option UnmarshalTypeError :=
  match f with
  | FSubAccountID =>
      let '(x, e) := decode_int ctx v (SubAccountID s) in
      ({| SubAccountID := x; EmbeddedPayload := EmbeddedPayload s |}, e)
  | FPromoted g =>
      let p := default zero_SubAccountPayload (EmbeddedPayload s) in
      let '(p', e) := set_SubAccountPayload ctx g v p in
      ({| SubAccountID := SubAccountID s; EmbeddedPayload := Some p' |}, e)
  end.

(** A value into a [SubAccount] that is there already. *)
Definition decode_SubAccount (ctx : errorContext) (v : value) (s : SubAccount)
    : SubAccount * option UnmarshalTypeError :=
  decode_struct SubAccount_fields set_SubAccount "SubAccount" "incapsula.SubAccount"
    ctx v s.

(** Lines 24-27. *)
Inductive AddResponseField : Type := FAdd_SubAccount | FAdd_Res.

Definition SubAccountAddResponse_fields : list (AddResponseField * StructField) :=
  [ (FAdd_SubAccount,
     {| Name := "SubAccount"; Tag := "json:" +:+ quoted "sub_account" |});
    (FAdd_Res, {| Name := "Res"; Tag := "json:" +:+ quoted "res" |}) ].

Definition zero_SubAccountAddResponse : SubAccountAddResponse :=
  {| AddResponse_SubAccount := zero_SubAccount; AddResponse_Res := 0 |}.

Definition set_SubAccountAddResponse (ctx : errorContext) (f : AddResponseField)
    (v : value) (r : SubAccountAddResponse)
    : SubAccountAddResponse * option UnmarshalTypeError :=
  match f with
  | FAdd_SubAccount =>
      let '(x, e) := decode_SubAccount ctx v (AddResponse_SubAccount r) in
      ({| AddResponse_SubAccount := x; AddResponse_Res := AddResponse_Res r |}, e)
  | FAdd_Res =>
      let '(x, e) := decode_int ctx v (AddResponse_Res r) in
      ({| AddResponse_SubAccount := AddResponse_SubAccount r; AddResponse_Res := x |}, e)
  end.

Definition decode_SubAccountAddResponse (v : value) (r : SubAccountAddResponse)
    : SubAccountAddResponse * option UnmarshalTypeError :=
  decode_struct SubAccountAddResponse_fields set_SubAccountAddResponse
    "SubAccountAddResponse" "incapsula.SubAccountAddResponse" top v r.

(** Lines 30-33. *)
Inductive ListResponseField : Type := FList_SubAccounts | FList_Res.

Definition SubAccountListResponse_fields : list (ListResponseField * StructField) :=
  [ (FList_SubAccounts,
     {| Name := "SubAccounts"; Tag := "json:" +:+ quoted "resultList" |});
    (FList_Res, {| Name := "Res"; Tag := "json:" +:+ quoted "res" |}) ].

Definition zero_SubAccountListResponse : SubAccountListResponse :=
  {| SubAccounts := []; ListResponse_Res := 0 |}.

(** An array into a slice of [SubAccount]: the item number i is decoded into
    the element number i of the array that backs the slice, which is there
    already when an earlier member has filled the slice that far, and is a
    zero element otherwise. [backing] holds the elements that are there;
    the result is the elements of the slice, what is left of [backing]
    behind them, and the first error. *)
Fixpoint decode_SubAccounts (ctx : errorContext) (items : list value)
    (backing : list SubAccount)
    : list SubAccount * list SubAccount * option UnmarshalTypeError :=
  match items with
  | [] => ([], backing, None)
  | item :: items' =>
      let '(s, e) := decode_SubAccount ctx item (hd zero_SubAccount backing) in
      let '(l, rest, e') := decode_SubAccounts ctx items' (tl backing) in
      (s :: l, rest, first_error e e')
  end.

(** The destination of the decoding of a list response: the struct, and the
    elements of the array backing its slice that lie behind the end of the
    slice (what an earlier, longer [resultList] of the same body has left
    there). *)
Record ListDestination : Type := {
  destination : SubAccountListResponse;
  behind : list SubAccount
}.

(** [null] makes the slice nil and an empty array makes it a new empty
    slice: nothing is left behind either. *)
Definition set_SubAccountListResponse (ctx : errorContext) (f : ListResponseField)
    (v : value) (d : ListDestination) : ListDestination * option UnmarshalTypeError :=
  let r := destination d in
  match f with
  | FList_SubAccounts =>
      match v with
      | Null =>
          ({| destination := {| SubAccounts := []; ListResponse_Res := ListResponse_Res r |};
              behind := [] |}, None)
      | Array [] =>
          ({| destination := {| SubAccounts := []; ListResponse_Res := ListResponse_Res r |};
              behind := [] |}, None)
      | Array items =>
          let '(l, rest, e) := decode_SubAccounts ctx items (SubAccounts r ++ behind d) in
          ({| destination := {| SubAccounts := l; ListResponse_Res := ListResponse_Res r |};
              behind := rest |}, e)
      | _ => (d, Some (type_error ctx (kind v) "[]incapsula.SubAccount"))
      end
  | FList_Res =>
      let '(x, e) := decode_int ctx v (ListResponse_Res r) in
      ({| destination := {| SubAccounts := SubAccounts r; ListResponse_Res := x |};
          behind := behind d |}, e)
  end.

(** Into a list response whose slice has nothing behind its end, as the
    fresh variable of line 160. *)
Definition decode_SubAccountListResponse (v : value) (r : SubAccountListResponse)
    : SubAccountListResponse * option UnmarshalTypeError :=
  let '(d, e) :=
    decode_struct SubAccountListResponse_fields set_SubAccountListResponse
      "SubAccountListResponse" "incapsula.SubAccountListResponse" top v
      {| destination := r; behind := [] |} in
  (destination d, e).

(** Lines 173-176. *)
Inductive DeleteResponseField : Type := FDelete_Res | FDelete_ResMessage.

Definition SubAccountDeleteResponse_fields : list (DeleteResponseField * StructField) :=
  [ (FDelete_Res, {| Name := "Res"; Tag := "json:" +:+ quoted "res" |});
    (FDelete_ResMessage,
     {| Name := "ResMessage"; Tag := "json:" +:+ quoted "res_message" |}) ].

Definition zero_SubAccountDeleteResponse : SubAccountDeleteResponse :=
  {| DeleteResponse_Res := 0; ResMessage := EmptyString |}.

Definition set_SubAccountDeleteResponse (ctx : errorContext) (f : DeleteResponseField)
    (v : value) (r : SubAccountDeleteResponse)
    : SubAccountDeleteResponse * option UnmarshalTypeError :=
  match f with
  | FDelete_Res =>
      let '(x, e) := decode_int ctx v (DeleteResponse_Res r) in
      ({| DeleteResponse_Res := x; ResMessage := ResMessage r |}, e)
  | FDelete_ResMessage =>
      let '(x, e) := decode_string ctx v (ResMessage r) in
      ({| DeleteResponse_Res := DeleteResponse_Res r; ResMessage := x |}, e)
  end.

Definition decode_SubAccountDeleteResponse (v : value) (r : SubAccountDeleteResponse)
    : SubAccountDeleteResponse * option UnmarshalTypeError :=
  decode_struct SubAccountDeleteResponse_fields set_SubAccountDeleteResponse
    "SubAccountDeleteResponse" "incapsula.SubAccountDeleteResponse" top v r.

(** The content of a field: an [int] or a [string]. *)
Inductive content : Type :=
| Int (n : Z)
| Text (s : string).



Definition int_content (v : value) : option content :=
  match v with
  | Number n => if bool_decide (int_min <= n <= int_max) then Some (Int n) else None
  | _ => None
  end.






(** *** From bytes to structs *)

(** [json.Unmarshal] of a body into a fresh struct: the body is parsed,
    then decoded; a syntax error or the first type error is the result.
    The parser and the texts of type errors belong to [encoding/json] and
    are taken as given. *)
Definition Unmarshal_by (parse : string -> value + error)
    (Error : UnmarshalTypeError -> error) {T : Type}
    (decode : value -> T -> T * option UnmarshalTypeError) (zero : T) : Unmarshal T :=
  fun body =>
    match parse body with
    | inr err => inr err
    | inl v =>
        match decode v zero with
        | (t, None) => inl t
        | (_, Some e) => inr (Error e)
        end
    end.

(** The compact text of a JSON value (strings are written as they are,
    between quotes: no escapes). *)
Fixpoint render (v : value) : string :=
  match v with
  | Null => "null"
  | Bool true => "true"
  | Bool false => "false"
  | Number n => Itoa n
  | Float literal => literal
  | Str s => quoted s
  | Array items =>
      "[" +:+ (fix items_text (l : list value) : string :=
                 match l with
                 | [] => EmptyString
                 | [x] => render x
                 | x :: l' => render x +:+ "," +:+ items_text l'
                 end) items +:+ "]"
  | Object members =>
      "{" +:+ (fix members_text (l : list (string * value)) : string :=
                 match l with
                 | [] => EmptyString
                 | [(k, x)] => quoted k +:+ ":" +:+ render x
                 | (k, x) :: l' => quoted k +:+ ":" +:+ render x +:+ "," +:+ members_text l'
                 end) members +:+ "}"
  end.

End JSON.

(** ** A scripted service

    What the examples below run the client against: responses whose bodies
    are the texts of given JSON documents, and a parser that knows exactly
    these documents. *)

Module Service.

Import JSON.

(** A parser for the documents [docs] only: their texts are parsed to
    them; any other body is refused with the syntax error that
    [encoding/json] gives for a body whose first byte cannot start a
    value. *)
Definition parse_among (docs : list value) (body : string) : value + error :=
  match find (fun v => String.eqb (render v) body) docs with
  | Some v => inl v
  | None =>
      inr (match body with
           | EmptyString => "unexpected end of JSON input"
           | String a _ =>
               "invalid character '" +:+ String a "' looking for beginning of value"
           end)
  end.

Section Documents.

Variable docs : list value.

Definition Unmarshal_AddResponse : Unmarshal SubAccountAddResponse :=
  Unmarshal_by (parse_among docs) UnmarshalTypeError_Error decode_SubAccountAddResponse
    zero_SubAccountAddResponse.

Definition Unmarshal_ListResponse : Unmarshal SubAccountListResponse :=
  Unmarshal_by (parse_among docs) UnmarshalTypeError_Error decode_SubAccountListResponse
    zero_SubAccountListResponse.

Definition Unmarshal_DeleteResponse : Unmarshal SubAccountDeleteResponse :=
  Unmarshal_by (parse_among docs) UnmarshalTypeError_Error decode_SubAccountDeleteResponse
    zero_SubAccountDeleteResponse.

End Documents.

(** A successful response with the text of [v] as body. *)
Definition ok (v : value) : PostResult :=
  PostOk {| Body := render v; ReadErr := None |}.

(** The entry of a list for the sub-account [id]. *)
Definition entry (id : Z) : value :=
  Object [("sub_account_id", Number id); ("sub_account_name", Str "sub")].

(** The page of the sub-accounts [first], ..., [first + n - 1]. *)
Definition page (first : Z) (n : nat) : value :=
  Object [("res", Number 0);
          ("resultList", Array (map (fun i => entry (first + Z.of_nat i)) (seq 0 n)))].

(** The sub-account that [entry id] decodes to. *)
Definition sub (id : Z) : SubAccount :=
  {| SubAccountID := id;
     EmbeddedPayload :=
       Some {| SubAccountName := "sub"; RefID := EmptyString; LogLevel := EmptyString;
               ParentID := 0; LogsAccountID := 0 |} |}.

Definition subs (first : Z) (n : nat) : list SubAccount :=
  map (fun i => sub (first + Z.of_nat i)) (seq 0 n).

(** The responder that answers the n-th POST with the n-th element of
    [script], and fails to connect afterwards. *)
Definition scripted (script : list PostResult) (n : nat) : PostResult :=
  default (PostErr "connection refused") (script !! n).

Definition client : Client := {| BaseURL := "https://my.incapsula.com/api/prov/v1" |}.

End Service.

(** ** The client run against scripted services *)

Import StructTag JSON Service.

(** Three pages: two of 50 entries, one of 3. *)
Definition three_pages : list value := [page 1 50; page 51 50; page 101 3].

Definition three_pages_world : World := fresh (scripted (map ok three_pages)).

(** One page of 50 entries, then a connection that times out. *)
Definition failing_world : World :=
  fresh (scripted [ok (page 1 50); PostErr "i/o timeout"]).

(** A service that answers every request with the same page. *)
Definition same_page_world (n : nat) : World := fresh (fun _ => ok (page 1 n)).

(** A service that answers with a page that is not JSON. *)
Definition html_world : World :=
  fresh (fun _ => PostOk {| Body := "<html>"; ReadErr := None |}).

Definition created : value :=
  Object [("res", Number 0);
          ("sub_account", Object [("sub_account_id", Number 7);
                                  ("sub_account_name", Str "x")])].

Definition payload_x : SubAccountPayload :=
  {| SubAccountName := "x"; RefID := EmptyString; LogLevel := EmptyString;
     ParentID := 0; LogsAccountID := 0 |}.

Definition payload_full : SubAccountPayload :=
  {| SubAccountName := "x"; RefID := "r-1"; LogLevel := "full";
     ParentID := 12; LogsAccountID := 34 |}.

(** What [created] decodes to. *)
Definition created_response : SubAccountAddResponse :=
  {| AddResponse_SubAccount :=
       {| SubAccountID := 7;
          EmbeddedPayload :=
            Some {| SubAccountName := "x"; RefID := EmptyString; LogLevel := EmptyString;
                    ParentID := 0; LogsAccountID := 0 |} |};
     AddResponse_Res := 0 |}.

(** The answer of the service to a request it refuses. *)
Definition refused : value :=
  Object [("res", Number 9413);
          ("res_message", Str "Unknown/unauthorized account_id")].

Definition refusing_world : World := fresh (fun _ => ok refused).

(** A service that answers with the empty object. *)
Definition empty_object_world : World := fresh (fun _ => ok (Object [])).

(** A service that sends the result code as a string. *)
Definition quoted_res : value := Object [("res", Str "0")].

Definition quoted_res_world : World := fresh (fun _ => ok quoted_res).

(** The long s (U+017F) in UTF-8. *)
Definition long_s : string :=
  String (ascii_of_nat 197) (String (ascii_of_nat 191) EmptyString).

(** A service that cannot be reached. *)
Definition unreachable_world : World := fresh (scripted []).

(** * Properties *)

(** ** Form bodies *)

Section FormBodies.

Context {decodeAdd : Unmarshal SubAccountAddResponse}
        {decodeList : Unmarshal SubAccountListResponse}.

(** Whatever the transport answers, an operation's request is appended to
    the log of the world. *)
Lemma AddSubAccount_sent (c : Client) (p : SubAccountPayload) (w : World) :
  sent (AddSubAccount c p w).2
  = (sent w ++ [{| req_url := BaseURL c +:+ "/" +:+ endpointSubAccountAdd;
                   req_values := AddSubAccount_values p;
                   req_operation := Operation.CreateSubAccount |}])%list.
Proof.
  unfold AddSubAccount, mbind, IO_bind, PostFormWithHeaders, mret, IO_ret; simpl.
  destruct (responder w (length (sent w))) as [resp|err]; simpl; [|done].
  destruct (json_Unmarshal (Body resp)) as [r|e]; [|done].
  by case_bool_decide.
Qed.

Lemma sendListSubAccountsRequest_sent (c : Client) (accountId pageNum : Z) (w : World) :
  sent (sendListSubAccountsRequest c accountId pageNum w).2
  = (sent w ++ [{| req_url := BaseURL c +:+ "/" +:+ endpointSubAccountList;
                   req_values := sendListSubAccountsRequest_values accountId pageNum;
                   req_operation := Operation.ReadSubAccount |}])%list.
Proof.
  unfold sendListSubAccountsRequest, mbind, IO_bind, PostFormWithHeaders, mret, IO_ret;
    simpl.
  destruct (responder w (length (sent w))) as [resp|err]; simpl; [|done].
  by destruct (json_Unmarshal (Body resp)) as [r|e].
Qed.

(** C4. The form body of [AddSubAccount] always holds [sub_account_name]
    with the payload's name; it holds [ref_id], [parent_id],
    [logs_account_id], [log_level] exactly when the payload's field is
    non-empty (strings) or nonzero (integers), with the payload's value; it
    holds nothing else, so it has one field when only the name is set and
    five when every optional field is set; and it is the body that is
    posted. *)
Theorem AddSubAccount_form_body (c : Client) (p : SubAccountPayload) (w : World) :
  let values := AddSubAccount_values p in
  values !! "sub_account_name" = Some [SubAccountName p]
  /\ values !! "ref_id"
     = (if bool_decide (RefID p = EmptyString) then None else Some [RefID p])
  /\ values !! "parent_id"
     = (if bool_decide (ParentID p = 0) then None else Some [Itoa (ParentID p)])
  /\ values !! "logs_account_id"
     = (if bool_decide (LogsAccountID p = 0) then None
        else Some [Itoa (LogsAccountID p)])
  /\ values !! "log_level"
     = (if bool_decide (LogLevel p = EmptyString) then None else Some [LogLevel p])
  /\ (forall k : string,
        k <> "sub_account_name" -> k <> "ref_id" -> k <> "parent_id" ->
        k <> "logs_account_id" -> k <> "log_level" ->
        values !! k = None)
  /\ size values
     = (1 + (if bool_decide (RefID p = EmptyString) then 0 else 1)
          + (if bool_decide (ParentID p = 0%Z) then 0 else 1)
          + (if bool_decide (LogsAccountID p = 0%Z) then 0 else 1)
          + (if bool_decide (LogLevel p = EmptyString) then 0 else 1))%nat
  /\ req_values <$> last (sent (AddSubAccount c p w).2) = Some values.
Proof.
  intros values.
  split_and!.
  1-5: subst values; unfold AddSubAccount_values;
       repeat case_bool_decide; by simplify_map_eq.
  - intros k ? ? ? ? ?. subst values; unfold AddSubAccount_values.
    repeat case_bool_decide; by simplify_map_eq.
  - subst values; unfold AddSubAccount_values.
    repeat case_bool_decide; try congruence;
      repeat (rewrite map_size_insert_None; [|by simplify_map_eq]);
      by rewrite map_size_singleton.
  - by rewrite AddSubAccount_sent, last_snoc.
Qed.

(** C7. The form body of a page fetch holds [page_num] with the page number
    given, [page_size] with 50, [account_id] with the parent account
    identifier exactly when that identifier is nonzero, and no other field;
    it is the body that is posted. *)
Theorem sendListSubAccountsRequest_form_body
    (c : Client) (accountId pageNum : Z) (w : World) :
  let values := sendListSubAccountsRequest_values accountId pageNum in
  values !! "page_num" = Some [Itoa pageNum]
  /\ values !! "page_size" = Some ["50"]
  /\ values !! "account_id"
     = (if bool_decide (accountId = 0) then None else Some [Itoa accountId])
  /\ (forall k : string,
        k <> "account_id" -> k <> "page_num" -> k <> "page_size" ->
        values !! k = None)
  /\ req_values <$> last (sent (sendListSubAccountsRequest c accountId pageNum w).2)
     = Some values.
Proof.
  intros values. split_and!.
  1-3: subst values; unfold sendListSubAccountsRequest_values;
       repeat case_bool_decide; by simplify_map_eq.
  - intros k ? ? ?. subst values; unfold sendListSubAccountsRequest_values.
    repeat case_bool_decide; by simplify_map_eq.
  - by rewrite sendListSubAccountsRequest_sent, last_snoc.
Qed.

End FormBodies.

(** ** The pagination loop *)

Lemma int_wrap_small (z : Z) : is_int z -> int_wrap z = z.
Proof.
  unfold is_int, int_min, int_max, int_wrap. intros Hz.
  rewrite Z.mod_small; lia.
Qed.

Lemma int_wrap_succ (z : Z) : int_wrap (int_wrap z + 1) = int_wrap (z + 1).
Proof.
  unfold int_wrap. f_equal.
  replace ((z + 2 ^ 63) mod 2 ^ 64 - 2 ^ 63 + 1 + 2 ^ 63)
    with ((z + 2 ^ 63) mod 2 ^ 64 + 1) by lia.
  replace (z + 1 + 2 ^ 63) with (z + 2 ^ 63 + 1) by lia.
  by rewrite Z.add_mod_idemp_l.
Qed.

Lemma page_number_0 : page_number 0 = 0.
Proof. reflexivity. Qed.

Lemma page_number_S (i : nat) : page_number (S i) = int_wrap (page_number i + 1).
Proof.
  unfold page_number. rewrite int_wrap_succ. f_equal. lia.
Qed.

(** Below [2 ^ 63] pages the counter has not wrapped. *)
Lemma page_number_small (i : nat) : Z.of_nat i <= int_max -> page_number i = Z.of_nat i.
Proof.
  intros Hi. apply int_wrap_small. unfold is_int, int_min. lia.
Qed.

Section Pagination.

Context {decodeList : Unmarshal SubAccountListResponse}.

Variable c : Client.
Variables parentAccountID subAccountID : Z.

Lemma sendListSubAccountsRequest_run (pageNum : Z) (w : World) :
  sendListSubAccountsRequest c parentAccountID pageNum w
  = (outcome parentAccountID w 0, after w [page_request c parentAccountID pageNum]).
Proof.
  unfold sendListSubAccountsRequest, outcome, page_fetch_result, after, page_request,
    mbind, IO_bind, PostFormWithHeaders, mret, IO_ret; simpl.
  rewrite Nat.add_0_r.
  destruct (responder w (length (sent w))) as [resp|err]; simpl; [|done].
  by destruct (json_Unmarshal (Body resp)).
Qed.

(** One iteration of the loop. *)
Lemma GetSubAccount_loop_step (fuel : nat) (count : Z) (w : World) :
  GetSubAccount_loop (S fuel) c parentAccountID subAccountID count w
  = let w' := after w [page_request c parentAccountID count] in
    match (outcome parentAccountID w 0).2 with
    | Some err => (Some (None, Some err), w')
    | None =>
        match scan_page (outcome parentAccountID w 0).1 subAccountID with
        | Some subAccount => (Some (Some subAccount, None), w')
        | None =>
            if bool_decide (Z.of_nat (length (outcome parentAccountID w 0).1) = PAGE_SIZE)
            then GetSubAccount_loop fuel c parentAccountID subAccountID
                   (int_wrap (count + 1)) w'
            else (Some (None, None), w')
        end
    end.
Proof.
  simpl. unfold mbind at 1, IO_bind at 1.
  rewrite sendListSubAccountsRequest_run.
  destruct (outcome parentAccountID w 0) as [l [err|]]; simpl; [done|].
  destruct (scan_page l subAccountID); [done|].
  by case_bool_decide.
Qed.

Lemma after_after (w : World) (rs rs' : list Request) :
  after (after w rs) rs' = after w (rs ++ rs').
Proof. unfold after; simpl. by rewrite <- app_assoc. Qed.

Lemma after_nil (w : World) : after w [] = w.
Proof. destruct w. unfold after; simpl. by rewrite app_nil_r. Qed.

Lemma outcome_after (w : World) (rs : list Request) (i : nat) :
  outcome parentAccountID (after w rs) i = outcome parentAccountID w (length rs + i).
Proof.
  unfold outcome, after; simpl. rewrite length_app. f_equal. f_equal. lia.
Qed.

Lemma page_requests_cons (j k : nat) :
  page_requests c parentAccountID j (S k)
  = page_request c parentAccountID (page_number j) :: page_requests c parentAccountID (S j) k.
Proof. reflexivity. Qed.

Lemma length_page_requests (j k : nat) : length (page_requests c parentAccountID j k) = k.
Proof. unfold page_requests. by rewrite length_map, length_seq. Qed.

(** The loop goes through a run of [k] outcomes that all continue, sending
    one request for each, the counter following [page_number]. *)
Lemma GetSubAccount_loop_continues (k : nat) :
  forall (fuel j : nat) (w : World),
    (forall i, (i < k)%nat ->
               continues subAccountID (outcome parentAccountID w i) = true) ->
    GetSubAccount_loop (k + fuel) c parentAccountID subAccountID (page_number j) w
    = GetSubAccount_loop fuel c parentAccountID subAccountID (page_number (j + k))
        (after w (page_requests c parentAccountID j k)).
Proof.
  induction k as [|k IH]; intros fuel j w Hk.
  - by rewrite Nat.add_0_r, after_nil.
  - replace (S k + fuel)%nat with (S (k + fuel)) by lia.
    rewrite GetSubAccount_loop_step; cbv zeta.
    pose proof (Hk 0%nat ltac:(lia)) as H0. unfold continues in H0.
    destruct ((outcome parentAccountID w 0).2); [done|].
    destruct (scan_page _ _); [done|].
    rewrite H0. rewrite <- page_number_S.
    rewrite IH.
    + rewrite after_after. replace (j + S k)%nat with (S j + k)%nat by lia.
      reflexivity.
    + intros i Hi. rewrite outcome_after. simpl. apply (Hk (S i)). lia.
Qed.

#[local] Abbreviation loop := GetSubAccount_loop.

Lemma scan_page_None (l : list SubAccount) :
  scan_page l subAccountID = None <-> no_match subAccountID l.
Proof.
  unfold no_match. induction l as [|s l IH]; simpl.
  - split; [constructor|done].
  - case_bool_decide as Hs.
    + split; [done|]. intros Hl. by inversion Hl.
    + rewrite IH. split; [by constructor|]. intros Hl. by inversion Hl.
Qed.

Lemma scan_page_first (pre post : list SubAccount) (s : SubAccount) :
  no_match subAccountID pre -> SubAccountID s = subAccountID ->
  scan_page (pre ++ s :: post) subAccountID = Some s.
Proof.
  intros Hpre Hs. induction Hpre as [|x pre Hx _ IH]; simpl.
  - by rewrite bool_decide_eq_true_2.
  - by rewrite bool_decide_eq_false_2.
Qed.

Lemma continues_true (o : list SubAccount * option error) :
  continues subAccountID o = true <-> o.2 = None /\ no_match subAccountID o.1 /\ full_page o.1.
Proof.
  unfold continues, full_page. rewrite <- scan_page_None.
  destruct (o.2); [intuition congruence|].
  destruct (scan_page _ _); [intuition congruence|].
  rewrite bool_decide_eq_true. intuition congruence.
Qed.

Lemma continues_false (o : list SubAccount * option error) :
  continues subAccountID o = false <-> ends_scan subAccountID o.
Proof.
  unfold ends_scan. rewrite <- not_true_iff_false, continues_true.
  destruct (o.2) as [e|].
  - split; [by left; eexists|]. by intros _ [? _].
  - destruct (decide (no_match subAccountID o.1)) as [Hn|Hn]; [|tauto].
    destruct (decide (full_page o.1)) as [Hf|Hf]; [|tauto].
    split; [tauto|]. intros [[? [=]]|[?|?]]; done.
Qed.

Lemma serves_app_l (w : World) (pages pages' : list (list SubAccount)) :
  serves parentAccountID w (pages ++ pages') -> serves parentAccountID w pages.
Proof.
  intros Hs i l Hi. apply Hs. by apply lookup_app_l_Some.
Qed.

Lemma serves_last (w : World) (pages : list (list SubAccount)) (l : list SubAccount) :
  serves parentAccountID w (pages ++ [l]) -> outcome parentAccountID w (length pages) = (l, None).
Proof.
  intros Hs. apply Hs. rewrite lookup_app_r by lia. by rewrite Nat.sub_diag.
Qed.

(** Full pages without the identifier are gone through one after the
    other. *)
Lemma serves_continues (w : World) (pages : list (list SubAccount)) :
  serves parentAccountID w pages ->
  Forall full_page pages -> Forall (no_match subAccountID) pages ->
  forall i, (i < length pages)%nat -> continues subAccountID (outcome parentAccountID w i) = true.
Proof.
  intros Hs Hfull Hno i Hi.
  destruct (lookup_lt_is_Some_2 pages i Hi) as [l Hl].
  rewrite (Hs i l Hl). apply continues_true; simpl.
  rewrite Forall_lookup in Hfull, Hno. eauto.
Qed.

Lemma GetSubAccount_through (w : World) (pages : list (list SubAccount)) (fuel : nat) :
  serves parentAccountID w pages ->
  Forall full_page pages -> Forall (no_match subAccountID) pages ->
  GetSubAccount (length pages + S fuel) c parentAccountID subAccountID w
  = loop (S fuel) c parentAccountID subAccountID (page_number (length pages))
      (after w (page_requests c parentAccountID 0 (length pages))).
Proof.
  intros Hs Hfull Hno. unfold GetSubAccount. rewrite <- page_number_0.
  rewrite GetSubAccount_loop_continues; [done|].
  by apply serves_continues.
Qed.

Lemma outcome_after_pages (w : World) (k : nat) :
  outcome parentAccountID (after w (page_requests c parentAccountID 0 k)) 0
  = outcome parentAccountID w k.
Proof. rewrite outcome_after, length_page_requests. f_equal. lia. Qed.

Lemma page_requests_snoc (k : nat) :
  (page_requests c parentAccountID 0 k
   ++ [page_request c parentAccountID (page_number k)])%list
  = page_requests c parentAccountID 0 (S k).
Proof.
  unfold page_requests.
  by rewrite seq_S, map_app.
Qed.

(** C1. A scan in which no entry has the identifier looked for: the pages are
    asked for in order from page 0 (the i-th fetch asks for [page_number i],
    which is [i] as long as the counter has not wrapped); after a page
    without the identifier the next page is asked for exactly when the page
    had [PAGE_SIZE] entries; the scan stops at the first page that has not
    (a shorter one, an empty one) and returns a nil sub-account with a nil
    error. *)
Theorem GetSubAccount_not_found :
  (forall (w : World) (full : list (list SubAccount)) (last_page : list SubAccount)
          (fuel : nat),
      serves parentAccountID w (full ++ [last_page]) ->
      Forall full_page full -> ~ full_page last_page ->
      Forall (no_match subAccountID) (full ++ [last_page]) ->
      (length full < fuel)%nat ->
      GetSubAccount fuel c parentAccountID subAccountID w
      = (Some (None, None), after w (page_requests c parentAccountID 0 (S (length full)))))
  /\ (forall (w : World) (l : list SubAccount) (count : Z) (fuel : nat),
        outcome parentAccountID w 0 = (l, None) -> no_match subAccountID l ->
        loop (S fuel) c parentAccountID subAccountID count w
        = if bool_decide (Z.of_nat (length l) = PAGE_SIZE)
          then loop fuel c parentAccountID subAccountID (int_wrap (count + 1))
                 (after w [page_request c parentAccountID count])
          else (Some (None, None), after w [page_request c parentAccountID count])).
Proof.
  split.
  - intros w full last_page fuel Hs Hfull Hshort Hno Hfuel.
    rewrite Forall_app, Forall_singleton in Hno. destruct Hno as [Hno Hlast].
    replace fuel with (length full + S (fuel - S (length full)))%nat by lia.
    rewrite (GetSubAccount_through w full) by eauto using serves_app_l.
    rewrite GetSubAccount_loop_step; cbv zeta.
    rewrite outcome_after_pages, (serves_last _ _ _ Hs); simpl.
    apply scan_page_None in Hlast as ->.
    rewrite bool_decide_eq_false_2 by done.
    by rewrite after_after, page_requests_snoc.
  - intros w l count fuel Hw Hl.
    rewrite GetSubAccount_loop_step; cbv zeta. rewrite Hw; simpl.
    by apply scan_page_None in Hl as ->.
Qed.

(** C2. A scan that meets the identifier looked for: after full pages
    without it, the page holding it is the last one fetched, and the first
    entry of that page with the identifier is returned with a nil error. *)
Theorem GetSubAccount_found (w : World) (full : list (list SubAccount))
    (pre post : list SubAccount) (subAccount : SubAccount) (fuel : nat) :
  serves parentAccountID w (full ++ [pre ++ subAccount :: post]) ->
  Forall full_page full -> Forall (no_match subAccountID) full ->
  no_match subAccountID pre -> SubAccountID subAccount = subAccountID ->
  (length full < fuel)%nat ->
  GetSubAccount fuel c parentAccountID subAccountID w
  = (Some (Some subAccount, None),
     after w (page_requests c parentAccountID 0 (S (length full)))).
Proof.
  intros Hs Hfull Hno Hpre Hid Hfuel.
  replace fuel with (length full + S (fuel - S (length full)))%nat by lia.
  rewrite (GetSubAccount_through w full) by eauto using serves_app_l.
  rewrite GetSubAccount_loop_step; cbv zeta.
  rewrite outcome_after_pages, (serves_last _ _ _ Hs); simpl.
  rewrite scan_page_first by done.
  by rewrite after_after, page_requests_snoc.
Qed.

(** C3. A scan whose page fetch fails: after full pages without the
    identifier, the error of the failed fetch is returned as it is, with a
    nil sub-account, and the failed fetch is the last one. The error of a
    fetch is the wrapped transport error, or the wrapped decoder error. *)
Theorem GetSubAccount_fetch_error (w : World) (full : list (list SubAccount))
    (err : error) (fuel : nat) :
  serves parentAccountID w full ->
  Forall full_page full -> Forall (no_match subAccountID) full ->
  (outcome parentAccountID w (length full)).2 = Some err ->
  (length full < fuel)%nat ->
  GetSubAccount fuel c parentAccountID subAccountID w
  = (Some (None, Some err), after w (page_requests c parentAccountID 0 (S (length full))))
  /\ (forall e : error,
        responder w (length (sent w) + length full) = PostErr e ->
        err = "Error getting subaccounts for account "
              +:+ Itoa parentAccountID +:+ ": " +:+ e).
Proof.
  intros Hs Hfull Hno Herr Hfuel. split.
  - replace fuel with (length full + S (fuel - S (length full)))%nat by lia.
    rewrite (GetSubAccount_through w full) by done.
    rewrite GetSubAccount_loop_step; cbv zeta.
    rewrite outcome_after_pages, Herr.
    by rewrite after_after, page_requests_snoc.
  - intros e He. unfold outcome in Herr.
    rewrite He in Herr. simpl in Herr. congruence.
Qed.

Lemma GetSubAccount_loop_step_true (fuel : nat) (count : Z) (w : World) :
  continues subAccountID (outcome parentAccountID w 0) = true ->
  loop (S fuel) c parentAccountID subAccountID count w
  = loop fuel c parentAccountID subAccountID (int_wrap (count + 1))
      (after w [page_request c parentAccountID count]).
Proof.
  intros Hc. rewrite GetSubAccount_loop_step; cbv zeta.
  unfold continues in Hc.
  destruct ((outcome parentAccountID w 0).2); [done|].
  destruct (scan_page _ _); [done|]. by rewrite Hc.
Qed.

Lemma GetSubAccount_loop_step_false (fuel : nat) (count : Z) (w : World) :
  continues subAccountID (outcome parentAccountID w 0) = false ->
  (loop (S fuel) c parentAccountID subAccountID count w).1 <> None.
Proof.
  intros Hc. rewrite GetSubAccount_loop_step; cbv zeta.
  unfold continues in Hc.
  destruct ((outcome parentAccountID w 0).2); [done|].
  destruct (scan_page _ _); [done|]. by rewrite Hc.
Qed.

(** The loop returns once it has reached an outcome parentAccountID that does not continue. *)
Lemma GetSubAccount_loop_returns (n : nat) :
  forall (count : Z) (w : World),
    continues subAccountID (outcome parentAccountID w n) = false ->
    (loop (S n) c parentAccountID subAccountID count w).1 <> None.
Proof.
  induction n as [|n IH]; intros count w Hn.
  - by apply GetSubAccount_loop_step_false.
  - destruct (continues subAccountID (outcome parentAccountID w 0)) eqn:H0.
    + rewrite GetSubAccount_loop_step_true by done.
      apply IH. by rewrite outcome_after.
    + by apply GetSubAccount_loop_step_false.
Qed.

(** If it returns, it has met such an outcome. *)
Lemma GetSubAccount_loop_returned (fuel : nat) :
  forall (count : Z) (w : World),
    (loop fuel c parentAccountID subAccountID count w).1 <> None ->
    exists i, (i < fuel)%nat /\ continues subAccountID (outcome parentAccountID w i) = false.
Proof.
  induction fuel as [|fuel IH]; intros count w Hr; [done|].
  destruct (continues subAccountID (outcome parentAccountID w 0)) eqn:H0.
  - rewrite GetSubAccount_loop_step_true in Hr by done.
    destruct (IH _ _ Hr) as (i & Hi & Hc).
    rewrite outcome_after in Hc. exists (S i). split; [lia|done].
  - exists 0%nat. split; [lia|done].
Qed.

(** C9, as the code has it. The scan returns exactly when some page fetch
    gives an error, a page holding the identifier, or a page whose number of
    entries is not [PAGE_SIZE]. When every fetch gives a full page without
    the identifier, no number of iterations is enough: after any number of
    them the scan has not returned and has sent that many requests, the
    i-th for page [page_number i]. *)
Theorem GetSubAccount_terminates_iff (w : World) :
  (terminates c parentAccountID subAccountID w
   <-> exists i : nat, ends_scan subAccountID (outcome parentAccountID w i))
  /\ ((forall i : nat,
         (outcome parentAccountID w i).2 = None
         /\ no_match subAccountID (outcome parentAccountID w i).1
         /\ full_page (outcome parentAccountID w i).1) ->
      forall fuel : nat,
        GetSubAccount fuel c parentAccountID subAccountID w
        = (None, after w (page_requests c parentAccountID 0 fuel))).
Proof.
  split.
  - split.
    + intros [fuel Hr]. apply GetSubAccount_loop_returned in Hr as (i & _ & Hc).
      exists i. by apply continues_false.
    + intros [i Hi]. exists (S i).
      apply GetSubAccount_loop_returns. by apply continues_false.
  - intros Hall fuel. unfold GetSubAccount.
    rewrite <- page_number_0, <- (Nat.add_0_r fuel) at 1.
    rewrite GetSubAccount_loop_continues; [done|].
    intros i _. by apply continues_true.
Qed.

End Pagination.

(** ** Texts of errors *)

Lemma append_cons (a : ascii) (s t : string) : String a s +:+ t = String a (s +:+ t).
Proof. reflexivity. Qed.

Lemma append_nil_r (s : string) : s +:+ EmptyString = s.
Proof. induction s as [|a s IH]; [done|]. by rewrite append_cons, IH. Qed.

Lemma append_assoc (s1 s2 s3 : string) : (s1 +:+ s2) +:+ s3 = s1 +:+ s2 +:+ s3.
Proof. induction s1 as [|a s1 IH]; [done|]. by rewrite !append_cons, IH. Qed.

Lemma Contains_suffix (pre s : string) : Contains (pre +:+ s) s.
Proof. exists pre, EmptyString. by rewrite append_nil_r. Qed.

Lemma Contains_append_r (pre s sub : string) : Contains s sub -> Contains (pre +:+ s) sub.
Proof.
  intros (p & q & ->). exists (pre +:+ p), q. by rewrite append_assoc.
Qed.

Lemma Contains_append_l (s post sub : string) : Contains s sub -> Contains (s +:+ post) sub.
Proof.
  intros (p & q & ->). exists p, (q +:+ post). by rewrite !append_assoc.
Qed.

Lemma Contains_prefix (s post : string) : Contains (s +:+ post) s.
Proof. exists EmptyString, post. reflexivity. Qed.

Lemma HasPrefix_append (sub post : string) : HasPrefix (sub +:+ post) sub = true.
Proof.
  induction sub as [|a sub IH]; [done|].
  rewrite append_cons; simpl. by rewrite Ascii.eqb_refl.
Qed.

(** The test [ContainsB] finds every occurrence. *)
Lemma ContainsB_complete (s sub : string) : Contains s sub -> ContainsB s sub = true.
Proof.
  intros (pre & post & ->). induction pre as [|a pre IH].
  - change (EmptyString +:+ sub +:+ post) with (sub +:+ post).
    destruct sub as [|b sub]; [by destruct post|].
    rewrite append_cons; simpl.
    by rewrite Ascii.eqb_refl, HasPrefix_append.
  - rewrite append_cons; simpl. rewrite IH. apply orb_true_r.
Qed.

Create HintDb contains.
#[global] Hint Resolve Contains_suffix Contains_prefix Contains_append_r
  Contains_append_l : contains.

(** ** From a response to a result *)

Section Responses.

Context {decodeAdd : Unmarshal SubAccountAddResponse}
        {decodeList : Unmarshal SubAccountListResponse}
        {decodeDelete : Unmarshal SubAccountDeleteResponse}.

Variable c : Client.

(** The result of each operation when the POST has succeeded, as a function
    of the response. *)
Lemma AddSubAccount_posted (p : SubAccountPayload) (w : World) (resp : Response) :
  responder w (length (sent w)) = PostOk resp ->
  (AddSubAccount c p w).1
  = match json_Unmarshal (Body resp) with
    | inr err =>
        (None, Some ("Error parsing add subaccount JSON response for subaccount "
                     +:+ SubAccountName p +:+ ": " +:+ err))
    | inl r =>
        if bool_decide (AddResponse_Res r = 0)
        then (Some r, None)
        else (None, Some ("Error from Incapsula service when adding subaccount "
                          +:+ SubAccountName p +:+ ": " +:+ Body resp))
    end.
Proof.
  intros Hw. unfold AddSubAccount, mbind, IO_bind, PostFormWithHeaders, mret, IO_ret.
  simpl. rewrite Hw. simpl.
  destruct (json_Unmarshal (Body resp)) as [r|e]; [|done].
  by repeat case_bool_decide.
Qed.

Lemma DeleteSubAccount_posted (subAccountID : Z) (w : World) (resp : Response) :
  responder w (length (sent w)) = PostOk resp ->
  (DeleteSubAccount c subAccountID w).1
  = match json_Unmarshal (Body resp) with
    | inr err =>
        Some ("Error parsing delete account JSON response for subaccount id: "
              +:+ Itoa subAccountID +:+ ": " +:+ err)
    | inl r =>
        if bool_decide (DeleteResponse_Res r = 0)
        then None
        else Some ("Error from Incapsula service when deleting subaccount id: "
                   +:+ Itoa subAccountID +:+ ": " +:+ Body resp)
    end.
Proof.
  intros Hw. unfold DeleteSubAccount, mbind, IO_bind, PostFormWithHeaders, mret, IO_ret.
  simpl. rewrite Hw. simpl.
  destruct (json_Unmarshal (Body resp)) as [r|e]; [|done].
  by repeat case_bool_decide.
Qed.

Lemma sendListSubAccountsRequest_posted (accountId pageNum : Z) (w : World)
    (resp : Response) :
  responder w (length (sent w)) = PostOk resp ->
  (sendListSubAccountsRequest c accountId pageNum w).1
  = match json_Unmarshal (Body resp) with
    | inr err =>
        ([], Some ("Error parsing subaccounts list JSON response for accountid: "
                   +:+ Itoa accountId +:+ " " +:+ err
                   +:+ String "010"%char "response: " +:+ Body resp))
    | inl r => (SubAccounts r, None)
    end.
Proof.
  intros Hw. rewrite sendListSubAccountsRequest_run; simpl.
  unfold outcome, page_fetch_result. by rewrite Nat.add_0_r, Hw.
Qed.

(** C5. When the response has been decoded, [AddSubAccount] and
    [DeleteSubAccount] return an error exactly when the result code [res]
    is not 0, and the text of that error contains the raw body; with [res]
    0, [AddSubAccount] returns the decoded response (the sub-account and
    its identifier) and a nil error, and [DeleteSubAccount] a nil error,
    whatever [res_message] is. *)
Theorem result_code_decides :
  (forall (p : SubAccountPayload) (w : World) (resp : Response)
          (r : SubAccountAddResponse),
      responder w (length (sent w)) = PostOk resp ->
      json_Unmarshal (Body resp) = inl r ->
      let '(result, err) := (AddSubAccount c p w).1 in
      (is_Some err <-> AddResponse_Res r <> 0)
      /\ (forall e, err = Some e -> result = None /\ Contains e (Body resp))
      /\ (AddResponse_Res r = 0 -> result = Some r /\ err = None))
  /\ (forall (subAccountID : Z) (w : World) (resp : Response)
             (r : SubAccountDeleteResponse),
        responder w (length (sent w)) = PostOk resp ->
        json_Unmarshal (Body resp) = inl r ->
        let err := (DeleteSubAccount c subAccountID w).1 in
        (is_Some err <-> DeleteResponse_Res r <> 0)
        /\ (forall e, err = Some e -> Contains e (Body resp))
        /\ (DeleteResponse_Res r = 0 -> err = None)).
Proof.
  split.
  - intros p w resp r Hw Hr. rewrite (AddSubAccount_posted p w resp Hw), Hr.
    case_bool_decide as Hres.
    + split_and!; [|done|done]. split; [by intros [? [=]]|done].
    + split_and!; [|by intros e [= <-]; auto with contains|done].
      split; [done|by eexists].
  - intros id w resp r Hw Hr. cbv zeta.
    rewrite (DeleteSubAccount_posted id w resp Hw), Hr.
    case_bool_decide as Hres.
    + split_and!; [|done|done]. split; [by intros [? [=]]|done].
    + split_and!; [|by intros e [= <-]; auto with contains|done].
      split; [done|by eexists].
Qed.

(** C6, as the code has it. When the body does not decode, each operation
    returns an error and nothing else, whose text is the one of lines 94, 163
    and 199: the context of the operation followed by the text of the
    decoder's error, and, for the page fetch only, by the raw body. So the
    text always contains the decoder's message; for [AddSubAccount] and
    [DeleteSubAccount] the body is no part of it. *)
Theorem decode_failure_is_reported :
  (forall (p : SubAccountPayload) (w : World) (resp : Response) (e : error),
      responder w (length (sent w)) = PostOk resp ->
      json_Unmarshal (T := SubAccountAddResponse) (Body resp) = inr e ->
      (AddSubAccount c p w).1
      = (None, Some ("Error parsing add subaccount JSON response for subaccount "
                     +:+ SubAccountName p +:+ ": " +:+ e))
      /\ Contains ("Error parsing add subaccount JSON response for subaccount "
                   +:+ SubAccountName p +:+ ": " +:+ e) e)
  /\ (forall (accountId pageNum : Z) (w : World) (resp : Response) (e : error),
        responder w (length (sent w)) = PostOk resp ->
        json_Unmarshal (T := SubAccountListResponse) (Body resp) = inr e ->
        exists text,
          text = "Error parsing subaccounts list JSON response for accountid: "
                 +:+ Itoa accountId +:+ " " +:+ e
                 +:+ String "010"%char "response: " +:+ Body resp
          /\ (sendListSubAccountsRequest c accountId pageNum w).1 = ([], Some text)
          /\ Contains text e /\ Contains text (Body resp))
  /\ (forall (subAccountID : Z) (w : World) (resp : Response) (e : error),
        responder w (length (sent w)) = PostOk resp ->
        json_Unmarshal (T := SubAccountDeleteResponse) (Body resp) = inr e ->
        (DeleteSubAccount c subAccountID w).1
        = Some ("Error parsing delete account JSON response for subaccount id: "
                +:+ Itoa subAccountID +:+ ": " +:+ e)
        /\ Contains ("Error parsing delete account JSON response for subaccount id: "
                     +:+ Itoa subAccountID +:+ ": " +:+ e) e).
Proof.
  split_and!.
  - intros p w resp e Hw He. rewrite (AddSubAccount_posted p w resp Hw), He.
    split; [done|]. auto with contains.
  - intros a n w resp e Hw He.
    rewrite (sendListSubAccountsRequest_posted a n w resp Hw), He.
    eexists; split_and!; [done|done| |].
    + do 3 apply Contains_append_r. apply Contains_prefix.
    + do 4 apply Contains_append_r.
      apply (Contains_suffix (String "010"%char "response: ")).
  - intros id w resp e Hw He. rewrite (DeleteSubAccount_posted id w resp Hw), He.
    split; [done|]. auto with contains.
Qed.

(** C10. A failure of the read of the body is not reported: whether the
    read has failed or not, the bytes obtained go to the decoder and each
    operation returns what the decoder makes of them, a parse error when
    they do not decode and the normal result when they do. The error of the
    read is in no result. *)
Theorem read_error_is_dropped (w : World) (body : string) (readErr : option error) :
  responder w (length (sent w)) = PostOk {| Body := body; ReadErr := readErr |} ->
  (forall p,
      (AddSubAccount c p w).1
      = match json_Unmarshal body with
        | inr err =>
            (None, Some ("Error parsing add subaccount JSON response for subaccount "
                         +:+ SubAccountName p +:+ ": " +:+ err))
        | inl r =>
            if bool_decide (AddResponse_Res r = 0)
            then (Some r, None)
            else (None, Some ("Error from Incapsula service when adding subaccount "
                              +:+ SubAccountName p +:+ ": " +:+ body))
        end)
  /\ (forall accountId pageNum,
        (sendListSubAccountsRequest c accountId pageNum w).1
        = match json_Unmarshal body with
          | inr err =>
              ([], Some ("Error parsing subaccounts list JSON response for accountid: "
                         +:+ Itoa accountId +:+ " " +:+ err
                         +:+ String "010"%char "response: " +:+ body))
          | inl r => (SubAccounts r, None)
          end)
  /\ (forall subAccountID,
        (DeleteSubAccount c subAccountID w).1
        = match json_Unmarshal body with
          | inr err =>
              Some ("Error parsing delete account JSON response for subaccount id: "
                    +:+ Itoa subAccountID +:+ ": " +:+ err)
          | inl r =>
              if bool_decide (DeleteResponse_Res r = 0)
              then None
              else Some ("Error from Incapsula service when deleting subaccount id: "
                         +:+ Itoa subAccountID +:+ ": " +:+ body)
          end).
Proof.
  intros Hw. split_and!.
  - intros p. by rewrite (AddSubAccount_posted p w _ Hw).
  - intros a n. by rewrite (sendListSubAccountsRequest_posted a n w _ Hw).
  - intros id. by rewrite (DeleteSubAccount_posted id w _ Hw).
Qed.

End Responses.

(** ** Wire names *)

(** *** What a member of an object does to its field *)

Section LastWins.

Context {T F X : Type}.
Variable fields : list (F * StructField).
Variable set : errorContext -> F -> value -> T -> T * option UnmarshalTypeError.
Variable struct : string.

(** [get f t] reads the field [f] of [t]; [conv f v] is the content the
    value [v] stands for in the field [f], when it is of the kind of the
    field. *)
Variable get : F -> T -> option X.
Variable conv : F -> value -> option X.

Hypothesis set_same :
  forall ctx f v t x, conv f v = Some x -> get f (set ctx f v t).1 = Some x.
Hypothesis set_other :
  forall ctx f g v t x, f <> g -> get g t = Some x -> get g (set ctx f v t).1 = Some x.




End LastWins.











(** *** Which key stands for which field *)

Section Keys.

Context {F : Type}.
Variable fields : list (F * StructField).





End Keys.






(** ** The client run against scripted services: checks *)

Lemma no_match_decide (subAccountID : Z) (l : list SubAccount) :
  forallb (fun s => negb (Z.eqb (SubAccountID s) subAccountID)) l = true ->
  no_match subAccountID l.
Proof.
  unfold no_match. induction l as [|s l IH]; simpl; [constructor|].
  intros [Hs Hl]%andb_true_iff. constructor; [|by apply IH].
  apply negb_true_iff in Hs. lia.
Qed.

(** Pages given explicitly: each is checked by evaluation. *)
Ltac pages_without_match :=
  repeat (apply Forall_cons_2; [by apply no_match_decide; vm_compute|]);
  apply Forall_nil_2.

Ltac pages_full :=
  repeat (apply Forall_cons_2; [by vm_compute|]); apply Forall_nil_2.

Lemma serves_three_pages :
  serves (decodeList := Unmarshal_ListResponse three_pages) 0 three_pages_world
    [subs 1 50; subs 51 50; subs 101 3].
Proof.
  intros i l. destruct i as [|[|[|i]]]; simpl; intros [= <-]; by vm_compute.
Qed.

(** Pages 0 and 1 of 50 entries, page 2 of 3 entries, the identifier nowhere:
    three fetches, for the pages 0, 1 and 2, and a nil result with a nil
    error. *)
Lemma GetSubAccount_not_found_witness :
  GetSubAccount (decodeList := Unmarshal_ListResponse three_pages) 3 client 0 999
    three_pages_world
  = (Some (None, None), after three_pages_world (page_requests client 0 0 3))
  /\ map (fun r => req_values r !! "page_num") (page_requests client 0 0 3)
     = [Some ["0"]; Some ["1"]; Some ["2"]].
Proof.
  split; [|by vm_compute].
  apply (proj1 (GetSubAccount_not_found client 0 999)
           three_pages_world [subs 1 50; subs 51 50] (subs 101 3) 3%nat).
  - exact serves_three_pages.
  - pages_full.
  - unfold full_page. by vm_compute.
  - pages_without_match.
  - simpl. lia.
Defined.

(** Page 0 of 50 entries with the identifier at index 10: one fetch, and that
    entry. *)
Lemma GetSubAccount_found_witness :
  GetSubAccount (decodeList := Unmarshal_ListResponse three_pages) 1 client 0 11
    three_pages_world
  = (Some (Some (sub 11), None), after three_pages_world (page_requests client 0 0 1))
  /\ subs 1 50 !! 10%nat = Some (sub 11).
Proof.
  split; [|by vm_compute].
  apply (GetSubAccount_found client 0 11 three_pages_world [] (subs 1 10) (subs 12 39)
           (sub 11) 1%nat).
  - intros i l. destruct i as [|i]; simpl; intros [= <-]; by vm_compute.
  - pages_full.
  - pages_without_match.
  - by apply no_match_decide; vm_compute.
  - reflexivity.
  - simpl. lia.
Defined.

(** A transport error on the fetch of page 1: it is returned, and page 2 is not
    asked for. *)
Lemma GetSubAccount_fetch_error_witness :
  GetSubAccount (decodeList := Unmarshal_ListResponse three_pages) 5 client 0 999
    failing_world
  = (Some (None, Some "Error getting subaccounts for account 0: i/o timeout"),
     after failing_world (page_requests client 0 0 2)).
Proof.
  apply (GetSubAccount_fetch_error client 0 999 failing_world [subs 1 50]
           "Error getting subaccounts for account 0: i/o timeout" 5%nat).
  - intros i l. destruct i as [|i]; simpl; intros [= <-]; by vm_compute.
  - pages_full.
  - pages_without_match.
  - by vm_compute.
  - simpl. lia.
Defined.

(** A service that only has full pages without the identifier: after 4
    iterations the scan has not returned and has sent 4 requests. *)
Lemma GetSubAccount_terminates_iff_witness :
  GetSubAccount (decodeList := Unmarshal_ListResponse [page 1 50]) 4 client 0 999
    (same_page_world 50)
  = (None, after (same_page_world 50) (page_requests client 0 0 4)).
Proof.
  apply (proj2 (GetSubAccount_terminates_iff client 0 999 (same_page_world 50))).
  intros i.
  assert (outcome (decodeList := Unmarshal_ListResponse [page 1 50]) 0
            (same_page_world 50) i = (subs 1 50, None)) as -> by (by vm_compute).
  split_and!; [done|by apply no_match_decide; vm_compute|by vm_compute].
Defined.

(** C9 as stated fails: a page of 51 entries without the identifier ends the
    scan, though it is no error, holds no match and is not shorter than 50. *)
Lemma overfull_page_ends_scan :
  ~ (terminates (decodeList := Unmarshal_ListResponse [page 1 51]) client 0 999
       (same_page_world 51)
     <-> exists i : nat,
           ends_scan_short 999
             (outcome (decodeList := Unmarshal_ListResponse [page 1 51]) 0
                (same_page_world 51) i)).
Proof.
  intros [Hterm _].
  destruct Hterm as [i Hi].
  - exists 1%nat. by vm_compute.
  - assert (outcome (decodeList := Unmarshal_ListResponse [page 1 51]) 0
              (same_page_world 51) i = (subs 1 51, None)) as Ho by (by vm_compute).
    rewrite Ho in Hi. destruct Hi as [[e [=]]|[Hm|Hlen]].
    + apply Hm. by apply no_match_decide; vm_compute.
    + vm_compute in Hlen. discriminate Hlen.
Qed.


(** The body of the specification's example decodes to the sub-account 7
    named x. *)
Example Unmarshal_created :
  json_Unmarshal (Unmarshal := Unmarshal_AddResponse [created]) (render created)
  = inl created_response.
Proof. by vm_compute. Qed.

(** Only the name set: one field; every optional field set: five. *)
Lemma AddSubAccount_form_body_witness :
  size (AddSubAccount_values payload_x) = 1%nat
  /\ size (AddSubAccount_values payload_full) = 5%nat
  /\ AddSubAccount_values payload_full !! "logs_account_id" = Some ["34"]
  /\ AddSubAccount_values payload_x !! "user" = None.
Proof.
  destruct (AddSubAccount_form_body (decodeAdd := Unmarshal_AddResponse [])
              client payload_x html_world) as (_ & _ & _ & _ & _ & Hnone & Hsize & _).
  destruct (AddSubAccount_form_body (decodeAdd := Unmarshal_AddResponse [])
              client payload_full html_world) as (_ & _ & _ & Hlogs & _ & _ & Hsize' & _).
  split_and!.
  - exact Hsize.
  - exact Hsize'.
  - exact Hlogs.
  - by apply Hnone.
Defined.

(** No parent account, page 2. *)
Lemma sendListSubAccountsRequest_form_body_witness :
  sendListSubAccountsRequest_values 0 2 !! "page_num" = Some ["2"]
  /\ sendListSubAccountsRequest_values 0 2 !! "page_size" = Some ["50"]
  /\ sendListSubAccountsRequest_values 0 2 !! "account_id" = None
  /\ sendListSubAccountsRequest_values 0 2 !! "sub_account_id" = None.
Proof.
  destruct (sendListSubAccountsRequest_form_body (decodeList := Unmarshal_ListResponse [])
              client 0 2 html_world) as (Hnum & Hsize & Hacc & Hnone & _).
  split_and!; [exact Hnum|exact Hsize|exact Hacc|by apply Hnone].
Defined.

(** A creation answered with [res] 0. *)
Lemma result_code_decides_witness :
  let '(result, err) :=
    (AddSubAccount (decodeAdd := Unmarshal_AddResponse [created]) client payload_x
       (fresh (fun _ => ok created))).1 in
  (is_Some err <-> AddResponse_Res created_response <> 0)
  /\ (forall e, err = Some e -> result = None /\ Contains e (render created))
  /\ (AddResponse_Res created_response = 0 -> result = Some created_response /\ err = None).
Proof.
  apply (proj1 (result_code_decides (decodeAdd := Unmarshal_AddResponse [created])
                  (decodeDelete := Unmarshal_DeleteResponse [created]) client)
           payload_x (fresh (fun _ => ok created))
           {| Body := render created; ReadErr := None |} created_response).
  - reflexivity.
  - by vm_compute.
Defined.

(** A creation answered with a page that is not JSON. *)
Lemma decode_failure_is_reported_witness :
  (AddSubAccount (decodeAdd := Unmarshal_AddResponse []) client payload_x html_world).1
  = (None, Some ("Error parsing add subaccount JSON response for subaccount "
                 +:+ SubAccountName payload_x +:+ ": "
                 +:+ "invalid character '<' looking for beginning of value"))
  /\ Contains ("Error parsing add subaccount JSON response for subaccount "
               +:+ SubAccountName payload_x +:+ ": "
               +:+ "invalid character '<' looking for beginning of value")
       "invalid character '<' looking for beginning of value".
Proof.
  apply (proj1 (decode_failure_is_reported (decodeAdd := Unmarshal_AddResponse [])
                  (decodeList := Unmarshal_ListResponse [])
                  (decodeDelete := Unmarshal_DeleteResponse []) client)
           payload_x html_world {| Body := "<html>"; ReadErr := None |}).
  - reflexivity.
  - by vm_compute.
Defined.

(** C6 as stated fails for [AddSubAccount] and for [DeleteSubAccount]: the
    text of their parse error holds the decoder's message, not the body. *)
Lemma parse_error_without_body :
  json_Unmarshal (Unmarshal := Unmarshal_AddResponse []) "<html>"
  = inr "invalid character '<' looking for beginning of value"
  /\ (AddSubAccount (decodeAdd := Unmarshal_AddResponse []) client payload_x html_world).1
     = (None,
        Some ("Error parsing add subaccount JSON response for subaccount x: "
              +:+ "invalid character '<' looking for beginning of value"))
  /\ ~ Contains ("Error parsing add subaccount JSON response for subaccount x: "
                 +:+ "invalid character '<' looking for beginning of value") "<html>"
  /\ json_Unmarshal (Unmarshal := Unmarshal_DeleteResponse []) "<html>"
     = inr "invalid character '<' looking for beginning of value"
  /\ (DeleteSubAccount (decodeDelete := Unmarshal_DeleteResponse []) client 7 html_world).1
     = Some ("Error parsing delete account JSON response for subaccount id: 7: "
             +:+ "invalid character '<' looking for beginning of value")
  /\ ~ Contains ("Error parsing delete account JSON response for subaccount id: 7: "
                 +:+ "invalid character '<' looking for beginning of value") "<html>".
Proof.
  split_and!; [by vm_compute|by vm_compute| |by vm_compute|by vm_compute|].
  - intros H%ContainsB_complete. vm_compute in H. discriminate H.
  - intros H%ContainsB_complete. vm_compute in H. discriminate H.
Qed.

(** The read of the body breaks off, once after the whole of [created] has
    been obtained and once after the first four bytes of an HTML page: the
    creation succeeds in the first case, and fails with the decoder's error
    in the second. *)
Lemma read_error_is_dropped_witness :
  (AddSubAccount (decodeAdd := Unmarshal_AddResponse [created]) client payload_x
     (fresh (fun _ => PostOk {| Body := render created;
                                ReadErr := Some "unexpected EOF" |}))).1
  = (Some created_response, None)
  /\ (AddSubAccount (decodeAdd := Unmarshal_AddResponse [created]) client payload_x
        (fresh (fun _ => PostOk {| Body := "<htm";
                                   ReadErr := Some "unexpected EOF" |}))).1
     = (None, Some ("Error parsing add subaccount JSON response for subaccount x: "
                    +:+ "invalid character '<' looking for beginning of value")).
Proof.
  split.
  - apply (proj1 (read_error_is_dropped (decodeAdd := Unmarshal_AddResponse [created])
                    (decodeList := Unmarshal_ListResponse [created])
                    (decodeDelete := Unmarshal_DeleteResponse [created]) client
                    (fresh (fun _ => PostOk {| Body := render created;
                                               ReadErr := Some "unexpected EOF" |}))
                    (render created) (Some "unexpected EOF") eq_refl) payload_x).
  - apply (proj1 (read_error_is_dropped (decodeAdd := Unmarshal_AddResponse [created])
                    (decodeList := Unmarshal_ListResponse [created])
                    (decodeDelete := Unmarshal_DeleteResponse [created]) client
                    (fresh (fun _ => PostOk {| Body := "<htm";
                                               ReadErr := Some "unexpected EOF" |}))
                    "<htm" (Some "unexpected EOF") eq_refl) payload_x).
Defined.


(** A key written with the long s stands for the field all the same. *)
Example long_s_key :
  decode_SubAccountDeleteResponse (Object [("re" +:+ long_s, Number 3)])
    zero_SubAccountDeleteResponse
  = ({| DeleteResponse_Res := 3; ResMessage := EmptyString |}, None)
  /\ field_of_key SubAccount_fields (long_s +:+ "ub_account_id") = Some FSubAccountID.
Proof. split; by vm_compute. Qed.

(** A second [resultList] is decoded into the elements of the first. *)
Example resultList_twice :
  decode_SubAccountListResponse
    (Object [("resultList", Array [Object [("sub_account_id", Number 1)]]);
             ("resultList", Array [Object []])])
    zero_SubAccountListResponse
  = ({| SubAccounts := [{| SubAccountID := 1; EmbeddedPayload := None |}];
        ListResponse_Res := 0 |}, None).
Proof. by vm_compute. Qed.

(** The texts of type errors. *)
Example type_error_texts :
  UnmarshalTypeError_Error
  <$> (decode_SubAccountDeleteResponse (Object [("res", Str "0")])
         zero_SubAccountDeleteResponse).2
  = Some ("json: cannot unmarshal string into Go struct field "
          +:+ "SubAccountDeleteResponse.res of type int")
  /\ UnmarshalTypeError_Error
     <$> (decode_SubAccountAddResponse (Array []) zero_SubAccountAddResponse).2
     = Some ("json: cannot unmarshal array into Go value of type "
             +:+ "incapsula.SubAccountAddResponse").
Proof. split; by vm_compute. Qed.

(** * Further properties *)

(** ** What a scan that has returned tells *)

Section ScanResults.

Context {decodeList : Unmarshal SubAccountListResponse}.

Variable c : Client.
Variables parentAccountID subAccountID : Z.

Lemma scan_page_Some (l : list SubAccount) (s : SubAccount) :
  scan_page l subAccountID = Some s ->
  exists pre post, l = pre ++ s :: post /\ no_match subAccountID pre
                   /\ SubAccountID s = subAccountID.
Proof.
  induction l as [|x l IH]; simpl; [done|].
  case_bool_decide as Hx.
  - intros [= ->]. exists [], l. by split_and!; [|constructor|].
  - intros (pre & post & -> & Hpre & Hs)%IH.
    exists (x :: pre), post. by split_and!; [|constructor|].
Qed.

(** X1. The inner loop (lines 119-124) returns the first entry with the
    identifier, and none exactly when no entry has it. *)
Theorem scan_page_first_match (l : list SubAccount) (s : SubAccount) :
  (scan_page l subAccountID = Some s
   <-> exists pre post, l = pre ++ s :: post /\ no_match subAccountID pre
                        /\ SubAccountID s = subAccountID)
  /\ (scan_page l subAccountID = None <-> no_match subAccountID l).
Proof.
  split; [|apply scan_page_None]. split; [apply scan_page_Some|].
  intros (pre & post & -> & Hpre & Hs). by apply scan_page_first.
Qed.

(** A loop that returns has gone through outcomes that continue up to one
    that does not, has sent one request for each, and returns what that last
    outcome says. *)
Lemma GetSubAccount_loop_inv (fuel : nat) :
  forall (j : nat) (w w' : World) (r : option SubAccount * option error),
    GetSubAccount_loop fuel c parentAccountID subAccountID (page_number j) w
    = (Some r, w') ->
    exists n : nat,
      (n < fuel)%nat
      /\ (forall i, (i < n)%nat ->
                    continues subAccountID (outcome parentAccountID w i) = true)
      /\ continues subAccountID (outcome parentAccountID w n) = false
      /\ w' = after w (page_requests c parentAccountID j (S n))
      /\ r = match (outcome parentAccountID w n).2 with
             | Some err => (None, Some err)
             | None => (scan_page (outcome parentAccountID w n).1 subAccountID, None)
             end.
Proof.
  induction fuel as [|fuel IH]; intros j w w' r Hr; [done|].
  destruct (continues subAccountID (outcome parentAccountID w 0)) eqn:Hc.
  - rewrite GetSubAccount_loop_step_true, <- page_number_S in Hr by done.
    apply IH in Hr as (n & Hn & Hbefore & Hlast & -> & ->).
    exists (S n). split_and!.
    + lia.
    + intros [|i] Hi; [done|].
      specialize (Hbefore i ltac:(lia)). by rewrite outcome_after in Hbefore.
    + by rewrite outcome_after in Hlast.
    + by rewrite after_after.
    + by rewrite outcome_after.
  - rewrite GetSubAccount_loop_step in Hr; cbv zeta in Hr.
    exists 0%nat.
    change (page_requests c parentAccountID j 1)
      with [page_request c parentAccountID (page_number j)].
    split_and!; [lia|intros i Hi; lia|done| |].
    + unfold continues in Hc.
      destruct ((outcome parentAccountID w 0).2); [congruence|].
      destruct (scan_page _ _); [congruence|].
      rewrite Hc in Hr. congruence.
    + unfold continues in Hc.
      destruct ((outcome parentAccountID w 0).2); [congruence|].
      destruct (scan_page _ _); [congruence|].
      rewrite Hc in Hr. congruence.
Qed.

(** X2. Whatever the scan returns as a sub-account is an entry of the last
    page fetched, the first one of that page with the identifier asked for;
    it comes with a nil error, and every page fetched before was a full
    page without the identifier. *)
Theorem GetSubAccount_returns_the_target (fuel : nat) (w : World) (s : SubAccount)
    (e : option error) :
  (GetSubAccount fuel c parentAccountID subAccountID w).1 = Some (Some s, e) ->
  e = None
  /\ SubAccountID s = subAccountID
  /\ exists n : nat,
       (n < fuel)%nat
       /\ (GetSubAccount fuel c parentAccountID subAccountID w).2
          = after w (page_requests c parentAccountID 0 (S n))
       /\ (exists pre post,
             outcome parentAccountID w n = (pre ++ s :: post, None)
             /\ no_match subAccountID pre)
       /\ forall i, (i < n)%nat ->
            (outcome parentAccountID w i).2 = None
            /\ no_match subAccountID (outcome parentAccountID w i).1
            /\ full_page (outcome parentAccountID w i).1.
Proof.
  intros Hr. unfold GetSubAccount in *. rewrite <- page_number_0 in *.
  destruct (GetSubAccount_loop _ _ _ _ _ w) as [r w'] eqn:Hloop. simpl in Hr. subst r.
  apply GetSubAccount_loop_inv in Hloop as (n & Hn & Hbefore & _ & -> & Hres).
  destruct (outcome parentAccountID w n) as [l [err|]] eqn:Ho; simpl in Hres; [done|].
  injection Hres as Hs ->. symmetry in Hs.
  apply scan_page_Some in Hs as (pre & post & -> & Hpre & Hid).
  split_and!; [done|done|]. exists n.
  split_and!; [done|done|by exists pre, post|].
  intros i Hi. by apply continues_true, Hbefore.
Qed.

(** X3. A scan that returns "not found" (nil, nil) has seen every page up to
    the first one that is not full, and none of them holds the identifier:
    all the pages fetched but the last have exactly [PAGE_SIZE] entries, the
    last has not, and no fetch has failed. *)
Theorem GetSubAccount_not_found_is_complete (fuel : nat) (w : World) :
  (GetSubAccount fuel c parentAccountID subAccountID w).1 = Some (None, None) ->
  exists n : nat,
    (n < fuel)%nat
    /\ (GetSubAccount fuel c parentAccountID subAccountID w).2
       = after w (page_requests c parentAccountID 0 (S n))
    /\ forall i, (i <= n)%nat ->
         (outcome parentAccountID w i).2 = None
         /\ no_match subAccountID (outcome parentAccountID w i).1
         /\ (full_page (outcome parentAccountID w i).1 <-> (i < n)%nat).
Proof.
  intros Hr. unfold GetSubAccount in *. rewrite <- page_number_0 in *.
  destruct (GetSubAccount_loop _ _ _ _ _ w) as [r w'] eqn:Hloop. simpl in Hr. subst r.
  apply GetSubAccount_loop_inv in Hloop as (n & Hn & Hbefore & Hlast & -> & Hres).
  exists n. split_and!; [done|done|].
  intros i Hi. destruct (decide (i = n)) as [->|Hne].
  - destruct (outcome parentAccountID w n) as [l [err|]] eqn:Ho; simpl in Hres; [done|].
    injection Hres as Hs. symmetry in Hs. apply scan_page_None in Hs.
    apply continues_false in Hlast as [[? [=]]|[Hm|Hf]]; simpl in *; [done|].
    split_and!; [done|done|]. split; [done|lia].
  - specialize (Hbefore i ltac:(lia)). apply continues_true in Hbefore as (? & ? & ?).
    split_and!; [done|done|]. split; [lia|done].
Qed.

(** X4. An error returned by the scan is the error of the last page fetch,
    returned as it is and without a sub-account; the pages fetched before
    were full pages without the identifier. *)
Theorem GetSubAccount_error_is_the_fetch_error (fuel : nat) (w : World)
    (r : option SubAccount) (err : error) :
  (GetSubAccount fuel c parentAccountID subAccountID w).1 = Some (r, Some err) ->
  r = None
  /\ exists n : nat,
       (n < fuel)%nat
       /\ (outcome parentAccountID w n).2 = Some err
       /\ (GetSubAccount fuel c parentAccountID subAccountID w).2
          = after w (page_requests c parentAccountID 0 (S n))
       /\ forall i, (i < n)%nat ->
            (outcome parentAccountID w i).2 = None
            /\ no_match subAccountID (outcome parentAccountID w i).1
            /\ full_page (outcome parentAccountID w i).1.
Proof.
  intros Hr. unfold GetSubAccount in *. rewrite <- page_number_0 in *.
  destruct (GetSubAccount_loop _ _ _ _ _ w) as [r' w'] eqn:Hloop. simpl in Hr. subst r'.
  apply GetSubAccount_loop_inv in Hloop as (n & Hn & Hbefore & _ & -> & Hres).
  destruct ((outcome parentAccountID w n).2) as [err'|] eqn:Ho; [|done].
  injection Hres as -> ->.
  split; [done|]. exists n. split_and!; [done|done|done|].
  intros i Hi. by apply continues_true, Hbefore.
Qed.

End ScanResults.

(** ** The requests of a scan *)

(** [Itoa] tells integers apart. *)
Lemma Itoa_inj (n m : Z) : Itoa n = Itoa m -> n = m.
Proof.
  unfold Itoa. intros H.
  assert (forall z d, Z.to_int z = d -> d <> Decimal.Pos Decimal.Nil
                      /\ d <> Decimal.Neg Decimal.Nil) as Hnil.
  { intros z d <-. split; intros Hz; pose proof (f_equal Z.of_int Hz) as Hz';
      rewrite DecimalZ.of_to in Hz'; simpl in Hz'; subst z;
      vm_compute in Hz; discriminate Hz. }
  apply DecimalZ.to_int_inj.
  destruct (Hnil n _ eq_refl) as [Hn1 Hn2], (Hnil m _ eq_refl) as [Hm1 Hm2].
  pose proof (NilZero.isi _ Hn1 Hn2) as Hn. pose proof (NilZero.isi _ Hm1 Hm2) as Hm.
  rewrite H in Hn. congruence.
Qed.

Section ScanRequests.

Context {decodeList : Unmarshal SubAccountListResponse}.

Variable c : Client.
Variables parentAccountID subAccountID : Z.

Lemma page_request_inj (n m : Z) :
  page_request c parentAccountID n = page_request c parentAccountID m -> n = m.
Proof.
  intros H. apply (f_equal (fun r => req_values r !! "page_num")) in H. simpl in H.
  unfold sendListSubAccountsRequest_values in H.
  repeat case_bool_decide; simplify_map_eq; by apply Itoa_inj.
Qed.

Lemma GetSubAccount_loop_stop_sent (fuel : nat) (count : Z) (w : World) :
  continues subAccountID (outcome parentAccountID w 0) = false ->
  (GetSubAccount_loop (S fuel) c parentAccountID subAccountID count w).2
  = after w [page_request c parentAccountID count].
Proof.
  intros Hc. rewrite GetSubAccount_loop_step; cbv zeta. unfold continues in Hc.
  destruct ((outcome parentAccountID w 0).2); [done|].
  destruct (scan_page _ _); [done|]. by rewrite Hc.
Qed.

Lemma GetSubAccount_loop_sent (fuel : nat) :
  forall (j : nat) (w : World),
    exists n : nat,
      (n <= fuel)%nat /\ (0 < fuel -> 0 < n)%nat
      /\ (GetSubAccount_loop fuel c parentAccountID subAccountID (page_number j) w).2
         = after w (page_requests c parentAccountID j n)
      /\ ((GetSubAccount_loop fuel c parentAccountID subAccountID (page_number j) w).1
          = None -> n = fuel).
Proof.
  induction fuel as [|fuel IH]; intros j w.
  - exists 0%nat. split_and!; [lia|lia| |done]. by rewrite after_nil.
  - destruct (continues subAccountID (outcome parentAccountID w 0)) eqn:Hc.
    + rewrite GetSubAccount_loop_step_true, <- page_number_S by done.
      destruct (IH (S j) (after w [page_request c parentAccountID (page_number j)]))
        as (n & Hn & _ & Hsent & Hout).
      exists (S n). split_and!; [lia|lia| |intros H; f_equal; auto].
      by rewrite Hsent, after_after.
    + exists 1%nat. split_and!; [lia|lia| |].
      * by rewrite GetSubAccount_loop_stop_sent.
      * intros H. by apply (GetSubAccount_loop_step_false c) in H.
Qed.

(** X5. Whatever the service answers, a scan sends nothing but page fetches,
    for the pages 0, 1, 2, ... in this order, without a gap and without a
    repetition, all for the same parent account, and leaves the rest of the
    world as it is; it has sent at least one when it has run at all, and as
    many as the bound when the bound was not enough. *)
Theorem GetSubAccount_sends_consecutive_pages (fuel : nat) (w : World) :
  exists n : nat,
    (n <= fuel)%nat /\ (0 < fuel -> 0 < n)%nat
    /\ (GetSubAccount fuel c parentAccountID subAccountID w).2
       = after w (page_requests c parentAccountID 0 n)
    /\ ((GetSubAccount fuel c parentAccountID subAccountID w).1 = None -> n = fuel).
Proof.
  unfold GetSubAccount. rewrite <- page_number_0. apply GetSubAccount_loop_sent.
Qed.

(** X7. As long as the counter has not wrapped (up to [2 ^ 63] fetches), the
    requests of a scan are pairwise different: no page is asked for twice. *)
Theorem GetSubAccount_asks_no_page_twice (fuel : nat) (w : World) :
  Z.of_nat fuel <= 2 ^ 63 ->
  exists rs : list Request,
    (GetSubAccount fuel c parentAccountID subAccountID w).2 = after w rs
    /\ NoDup rs.
Proof.
  intros Hfuel. unfold GetSubAccount. rewrite <- page_number_0.
  destruct (GetSubAccount_loop_sent fuel 0 w) as (n & Hn & _ & Hsent & _).
  exists (page_requests c parentAccountID 0 n). split; [done|].
  change (NoDup ((fun i => page_request c parentAccountID (page_number i)) <$> seq 0 n)).
  apply NoDup_fmap_2_strong; [|apply NoDup_seq].
  intros i i' Hi Hi' Heq%page_request_inj.
  apply elem_of_seq in Hi, Hi'.
  rewrite !page_number_small in Heq by (unfold int_max; lia). lia.
Qed.

(** X8. A page fetch does not look at the result code: when the body
    decodes, its list is returned with a nil error whatever [res] is. So a
    scan answered with a service error that carries no list returns "not
    found" (nil, nil) after one fetch. *)
Theorem page_fetch_ignores_res (w : World) (resp : Response)
    (l : list SubAccount) (res : Z) :
  responder w (length (sent w)) = PostOk resp ->
  json_Unmarshal (Body resp) = inl {| SubAccounts := l; ListResponse_Res := res |} ->
  (forall pageNum,
      (sendListSubAccountsRequest c parentAccountID pageNum w).1 = (l, None))
  /\ (l = [] ->
      forall fuel,
        GetSubAccount (S fuel) c parentAccountID subAccountID w
        = (Some (None, None), after w (page_requests c parentAccountID 0 1))).
Proof.
  intros Hw Hr.
  assert (outcome parentAccountID w 0 = (l, None)) as Ho.
  { unfold outcome, page_fetch_result. by rewrite Nat.add_0_r, Hw, Hr. }
  split.
  - intros n. by rewrite sendListSubAccountsRequest_run.
  - intros -> fuel. unfold GetSubAccount.
    rewrite GetSubAccount_loop_step; cbv zeta. by rewrite Ho.
Qed.

End ScanRequests.

(** ** One exchange for each operation *)

Section Exchanges.

Context {decodeAdd : Unmarshal SubAccountAddResponse}
        {decodeList : Unmarshal SubAccountListResponse}
        {decodeDelete : Unmarshal SubAccountDeleteResponse}.

Variable c : Client.

Lemma DeleteSubAccount_sent (subAccountID : Z) (w : World) :
  (DeleteSubAccount c subAccountID w).2
  = after w [{| req_url := BaseURL c +:+ "/" +:+ endpointSubAccountDelete;
                req_values := {[ "sub_account_id" := [Itoa subAccountID] ]};
                req_operation := Operation.DeleteSubAccount |}].
Proof.
  unfold DeleteSubAccount, after, mbind, IO_bind, PostFormWithHeaders, mret, IO_ret; simpl.
  destruct (responder w (length (sent w))) as [resp|err]; simpl; [|done].
  destruct (json_Unmarshal (Body resp)) as [r|e]; [|done].
  by case_bool_decide.
Qed.

(** X9. Each of [AddSubAccount], the page fetch and [DeleteSubAccount] makes
    exactly one POST, whatever comes back (a transport error, a body that
    does not decode, a nonzero result code): to its own endpoint under the
    base URL, with its own operation identifier; nothing is sent again. The
    body of a deletion is the single field [sub_account_id] with the
    identifier in decimal. *)
Theorem one_request_per_operation (w : World) :
  (forall p,
      (AddSubAccount c p w).2
      = after w [{| req_url := BaseURL c +:+ "/" +:+ "subaccounts/add";
                    req_values := AddSubAccount_values p;
                    req_operation := Operation.CreateSubAccount |}])
  /\ (forall accountId pageNum,
        (sendListSubAccountsRequest c accountId pageNum w).2
        = after w [{| req_url := BaseURL c +:+ "/" +:+ "accounts/listSubAccounts";
                      req_values := sendListSubAccountsRequest_values accountId pageNum;
                      req_operation := Operation.ReadSubAccount |}])
  /\ (forall subAccountID,
        (DeleteSubAccount c subAccountID w).2
        = after w [{| req_url := BaseURL c +:+ "/" +:+ "subaccounts/delete";
                      req_values := {[ "sub_account_id" := [Itoa subAccountID] ]};
                      req_operation := Operation.DeleteSubAccount |}]).
Proof.
  split_and!.
  - intros p. pose proof (AddSubAccount_sent c p w) as Hs.
    destruct (AddSubAccount c p w) as [r w'] eqn:Hrun. simpl in *.
    assert (responder w' = responder w) as Hr.
    { revert Hrun.
      unfold AddSubAccount, mbind, IO_bind, PostFormWithHeaders, mret, IO_ret; simpl.
      destruct (responder w (length (sent w))) as [resp|err]; simpl;
        [|by intros [= _ <-]].
      destruct (json_Unmarshal (Body resp)); [|by intros [= _ <-]].
      by case_bool_decide; intros [= _ <-]. }
    destruct w'. unfold after. simpl in *. by subst.
  - intros a n. by rewrite sendListSubAccountsRequest_run.
  - intros id. apply DeleteSubAccount_sent.
Qed.

(** X10. When the POST itself fails, each operation returns the transport
    error wrapped with what was being processed (the name of the sub-account,
    its identifier, the parent account) and nothing else; the body is not
    read and nothing is decoded. A scan whose first fetch fails so returns
    that wrapped error. *)
Theorem transport_failure_is_wrapped (w : World) (err : error) :
  responder w (length (sent w)) = PostErr err ->
  (forall p,
      (AddSubAccount c p w).1
      = (None, Some ("Error adding subaccount " +:+ SubAccountName p +:+ ": " +:+ err)))
  /\ (forall accountId pageNum,
        (sendListSubAccountsRequest c accountId pageNum w).1
        = ([], Some ("Error getting subaccounts for account " +:+ Itoa accountId
                     +:+ ": " +:+ err)))
  /\ (forall subAccountID,
        (DeleteSubAccount c subAccountID w).1
        = Some ("Error deleting subaccount id: " +:+ Itoa subAccountID +:+ ": " +:+ err))
  /\ (forall fuel parentAccountID subAccountID,
        (GetSubAccount (S fuel) c parentAccountID subAccountID w).1
        = Some (None, Some ("Error getting subaccounts for account "
                            +:+ Itoa parentAccountID +:+ ": " +:+ err))).
Proof.
  intros Hw. split_and!.
  - intros p. unfold AddSubAccount, mbind, IO_bind, PostFormWithHeaders, mret, IO_ret.
    simpl. by rewrite Hw.
  - intros a n. rewrite sendListSubAccountsRequest_run; simpl.
    unfold outcome, page_fetch_result. by rewrite Nat.add_0_r, Hw.
  - intros id. unfold DeleteSubAccount, mbind, IO_bind, PostFormWithHeaders, mret, IO_ret.
    simpl. by rewrite Hw.
  - intros fuel a t. unfold GetSubAccount. rewrite GetSubAccount_loop_step; cbv zeta.
    unfold outcome, page_fetch_result. by rewrite Nat.add_0_r, Hw.
Qed.

(** X11. [AddSubAccount] returns either a response or an error, never both
    and never neither; a response it returns has the result code 0 and is
    what the body of a successful POST decodes to. *)
Theorem AddSubAccount_response_or_error (p : SubAccountPayload) (w : World) :
  let '(result, err) := (AddSubAccount c p w).1 in
  (is_Some result <-> err = None)
  /\ (forall r, result = Some r ->
        AddResponse_Res r = 0
        /\ exists resp, responder w (length (sent w)) = PostOk resp
                        /\ json_Unmarshal (Body resp) = inl r).
Proof.
  unfold AddSubAccount, mbind, IO_bind, PostFormWithHeaders, mret, IO_ret. simpl.
  destruct (responder w (length (sent w))) as [resp|e]; simpl.
  - destruct (json_Unmarshal (Body resp)) as [r|e] eqn:Hr.
    + case_bool_decide as Hres; simpl.
      * split; [split; [by intros [? [=]]|done]|done].
      * split; [done|]. intros ? [= <-]. split; [lia|by exists resp].
    + split; [split; [by intros [? [=]]|done]|done].
  - split; [split; [by intros [? [=]]|done]|done].
Qed.

(** X12. In every form body the client builds, each field has exactly one
    value. *)
Theorem form_fields_are_single_valued (k : string) (vs : list string) :
  (forall p, AddSubAccount_values p !! k = Some vs -> length vs = 1%nat)
  /\ (forall accountId pageNum,
        sendListSubAccountsRequest_values accountId pageNum !! k = Some vs ->
        length vs = 1%nat).
Proof.
  split.
  - intros p. unfold AddSubAccount_values.
    repeat case_bool_decide;
      repeat (rewrite lookup_insert; case_decide; [by intros [= <-]|]);
      rewrite lookup_singleton; case_decide; by intros [= <-].
  - intros a n. unfold sendListSubAccountsRequest_values.
    repeat case_bool_decide;
      repeat (rewrite lookup_insert; case_decide; [by intros [= <-]|]);
      by rewrite lookup_empty.
Qed.

End Exchanges.

(** ** Bodies that say little *)

Lemma decode_members_unknown {T F : Type} (fields : list (F * StructField))
    (set : errorContext -> F -> value -> T -> T * option UnmarshalTypeError)
    (struct : string) (ctx : errorContext) (ms : list (string * value)) (t : T) :
  Forall (fun m => field_of_key fields m.1 = None) ms ->
  decode_members fields set struct ctx ms t = (t, None).
Proof.
  unfold decode_members. induction 1 as [|m ms Hm _ IH]; simpl; [done|].
  unfold decode_member at 2. by rewrite Hm.
Qed.

Lemma fold_decode_member_payload (ctx : errorContext) (ms : list (string * value)) :
  forall st : SubAccount * option UnmarshalTypeError,
    is_Some (EmbeddedPayload
               (fold_left (decode_member SubAccount_fields set_SubAccount "SubAccount" ctx)
                  ms st).1)
    <-> is_Some (EmbeddedPayload st.1)
        \/ Exists (fun m => exists g,
                     field_of_key SubAccount_fields m.1 = Some (FPromoted g)) ms.
Proof.
  induction ms as [|m ms IH]; intros st; simpl.
  - rewrite Exists_nil. tauto.
  - rewrite IH, Exists_cons. unfold decode_member.
    destruct (field_of_key SubAccount_fields m.1) as [[|g]|] eqn:Hm.
    + simpl. destruct (decode_int _ _ _); simpl.
      split; [tauto|]. intros [?|[[g [=]]|?]]; tauto.
    + simpl. destruct (set_SubAccountPayload _ _ _ _); simpl.
      split; [intros _; right; left; by exists g|intros _; left; by eexists].
    + split; [tauto|]. intros [?|[[g [=]]|?]]; tauto.
Qed.

(** X13. The embedded payload of a decoded sub-account is allocated by the
    keys of the payload and by them only: decoded into a sub-account whose
    payload pointer is nil, an object leaves the pointer nil exactly when
    none of its keys stands for a field of the payload (an object with
    [sub_account_id] alone, say), whatever the values are. *)
Theorem embedded_payload_follows_the_keys (ctx : errorContext)
    (ms : list (string * value)) (s : SubAccount) :
  is_Some (EmbeddedPayload (decode_SubAccount ctx (Object ms) s).1)
  <-> is_Some (EmbeddedPayload s)
      \/ Exists (fun m => exists g,
                   field_of_key SubAccount_fields m.1 = Some (FPromoted g)) ms.
Proof.
  unfold decode_SubAccount, decode_struct, decode_members.
  by rewrite fold_decode_member_payload.
Qed.

Section EmptyAnswers.

(** The parser and the texts of type errors of [encoding/json], whatever
    they are. *)
Variable parse : string -> value + error.
Variable Error : UnmarshalTypeError -> error.

Variable c : Client.

(** X14. A body that is JSON [null], the empty object, or an object with
    none of the expected keys decodes to the zero value of the response, and
    so counts as a success: [AddSubAccount] returns a response whose
    sub-account has the identifier 0 and no payload, [DeleteSubAccount]
    returns nil, and the page fetch returns an empty page. *)
Theorem empty_answer_is_success (w : World) (resp : Response) (v : value) :
  responder w (length (sent w)) = PostOk resp ->
  parse (Body resp) = inl v ->
  ((v = Null
    \/ exists ms,
         v = Object ms
         /\ Forall (fun m => field_of_key SubAccountAddResponse_fields m.1 = None) ms) ->
   forall p,
     (AddSubAccount
        (decodeAdd := Unmarshal_by parse Error decode_SubAccountAddResponse
                        zero_SubAccountAddResponse) c p w).1
     = (Some {| AddResponse_SubAccount := {| SubAccountID := 0; EmbeddedPayload := None |};
                AddResponse_Res := 0 |}, None))
  /\ ((v = Null
       \/ exists ms,
            v = Object ms
            /\ Forall (fun m => field_of_key SubAccountListResponse_fields m.1 = None) ms) ->
      forall accountId pageNum,
        (sendListSubAccountsRequest
           (decodeList := Unmarshal_by parse Error decode_SubAccountListResponse
                            zero_SubAccountListResponse) c accountId pageNum w).1
        = ([], None))
  /\ ((v = Null
       \/ exists ms,
            v = Object ms
            /\ Forall (fun m => field_of_key SubAccountDeleteResponse_fields m.1 = None) ms) ->
      forall subAccountID,
        (DeleteSubAccount
           (decodeDelete := Unmarshal_by parse Error decode_SubAccountDeleteResponse
                              zero_SubAccountDeleteResponse) c subAccountID w).1
        = None).
Proof.
  intros Hw Hv. split_and!.
  - intros Hnothing p. rewrite (AddSubAccount_posted c p w resp Hw).
    unfold json_Unmarshal, Unmarshal_by. rewrite Hv.
    destruct Hnothing as [->|(ms & -> & Hms)]; simpl; [done|].
    unfold decode_SubAccountAddResponse, decode_struct.
    by rewrite decode_members_unknown.
  - intros Hnothing a n. rewrite (sendListSubAccountsRequest_posted c a n w resp Hw).
    unfold json_Unmarshal, Unmarshal_by. rewrite Hv.
    destruct Hnothing as [->|(ms & -> & Hms)]; simpl; [done|].
    unfold decode_SubAccountListResponse, decode_struct.
    by rewrite decode_members_unknown.
  - intros Hnothing id. rewrite (DeleteSubAccount_posted c id w resp Hw).
    unfold json_Unmarshal, Unmarshal_by. rewrite Hv.
    destruct Hnothing as [->|(ms & -> & Hms)]; simpl; [done|].
    unfold decode_SubAccountDeleteResponse, decode_struct.
    by rewrite decode_members_unknown.
Qed.

End EmptyAnswers.

(** ** A result code of the wrong kind *)

Lemma fold_decode_member_error {T F : Type} (fields : list (F * StructField))
    (set : errorContext -> F -> value -> T -> T * option UnmarshalTypeError)
    (struct : string) (ctx : errorContext) (ms : list (string * value)) :
  forall st : T * option UnmarshalTypeError,
    is_Some st.2 -> is_Some (fold_left (decode_member fields set struct ctx) ms st).2.
Proof.
  induction ms as [|m ms IH]; intros st Hst; [done|].
  simpl. apply IH. unfold decode_member.
  destruct (field_of_key fields m.1); [|done].
  destruct (set _ _ _ _) as [t e]. simpl. by destruct Hst as [e' ->].
Qed.

(** A member that its field refuses makes the decoding of the object fail. *)
Lemma decode_members_error {T F : Type} (fields : list (F * StructField))
    (set : errorContext -> F -> value -> T -> T * option UnmarshalTypeError)
    (struct : string) (ctx : errorContext)
    (ms1 ms2 : list (string * value)) (key : string) (v : value) (f : F) (t : T) :
  field_of_key fields key = Some f ->
  (forall ctx' t', is_Some (set ctx' f v t').2) ->
  is_Some (decode_members fields set struct ctx (ms1 ++ (key, v) :: ms2) t).2.
Proof.
  intros Hkey Hset. unfold decode_members. rewrite fold_left_app. simpl.
  apply fold_decode_member_error. unfold decode_member at 1. simpl. rewrite Hkey.
  specialize (Hset (member_context ctx struct (name_of_key fields key))
                (fold_left (decode_member fields set struct ctx) ms1 (t, None)).1).
  destruct (set _ f v _) as [t' e]. simpl in *. destruct Hset as [e' ->].
  by destruct (_.2).
Qed.

Lemma decode_int_refuses (ctx : errorContext) (v : value) (old : Z) :
  v <> Null -> int_content v = None -> is_Some (decode_int ctx v old).2.
Proof.
  destruct v; simpl; try done; intros _; [|by eexists..].
  case_bool_decide; [done|by eexists].
Qed.

Section WrongKind.

Variable parse : string -> value + error.
Variable Error : UnmarshalTypeError -> error.

Variable c : Client.

(** X15. A body whose [res] member is neither [null] nor an integer of the
    range of [int] (a string, a number with a fraction or out of the range,
    a list, ...) does not decode: each operation returns its parse error
    with the text of the type error, also the page fetch, which otherwise
    does not look at [res]. *)
Theorem res_of_the_wrong_kind_is_a_parse_error (w : World) (resp : Response)
    (ms1 ms2 : list (string * value)) (v : value) :
  responder w (length (sent w)) = PostOk resp ->
  parse (Body resp) = inl (Object (ms1 ++ ("res", v) :: ms2)) ->
  v <> Null -> int_content v = None ->
  (forall p, exists e,
      (AddSubAccount
         (decodeAdd := Unmarshal_by parse Error decode_SubAccountAddResponse
                         zero_SubAccountAddResponse) c p w).1
      = (None, Some ("Error parsing add subaccount JSON response for subaccount "
                     +:+ SubAccountName p +:+ ": " +:+ Error e)))
  /\ (forall accountId pageNum, exists e,
        (sendListSubAccountsRequest
           (decodeList := Unmarshal_by parse Error decode_SubAccountListResponse
                            zero_SubAccountListResponse) c accountId pageNum w).1
        = ([], Some ("Error parsing subaccounts list JSON response for accountid: "
                     +:+ Itoa accountId +:+ " " +:+ Error e
                     +:+ String "010"%char "response: " +:+ Body resp)))
  /\ (forall subAccountID, exists e,
        (DeleteSubAccount
           (decodeDelete := Unmarshal_by parse Error decode_SubAccountDeleteResponse
                              zero_SubAccountDeleteResponse) c subAccountID w).1
        = Some ("Error parsing delete account JSON response for subaccount id: "
                +:+ Itoa subAccountID +:+ ": " +:+ Error e)).
Proof.
  intros Hw Hv Hnull Hint. split_and!.
  - intros p. rewrite (AddSubAccount_posted c p w resp Hw).
    unfold json_Unmarshal, Unmarshal_by. rewrite Hv.
    unfold decode_SubAccountAddResponse, decode_struct.
    destruct (decode_members_error SubAccountAddResponse_fields
                set_SubAccountAddResponse "SubAccountAddResponse" top
                ms1 ms2 "res" v FAdd_Res zero_SubAccountAddResponse eq_refl) as [e He].
    { intros ctx t. simpl.
      pose proof (decode_int_refuses ctx v (AddResponse_Res t)) as H.
      destruct (decode_int _ _ _). by apply H. }
    destruct (decode_members _ _ _ _ _ _) as [t e']. simpl in He. subst e'. by exists e.
  - intros a n. rewrite (sendListSubAccountsRequest_posted c a n w resp Hw).
    unfold json_Unmarshal, Unmarshal_by. rewrite Hv.
    unfold decode_SubAccountListResponse, decode_struct.
    destruct (decode_members_error SubAccountListResponse_fields
                set_SubAccountListResponse "SubAccountListResponse" top
                ms1 ms2 "res" v FList_Res
                {| destination := zero_SubAccountListResponse; behind := [] |} eq_refl)
      as [e He].
    { intros ctx t. simpl.
      pose proof (decode_int_refuses ctx v (ListResponse_Res (destination t))) as H.
      destruct (decode_int _ _ _). by apply H. }
    destruct (decode_members _ _ _ _ _ _) as [t e']. simpl in He. subst e'. by exists e.
  - intros id. rewrite (DeleteSubAccount_posted c id w resp Hw).
    unfold json_Unmarshal, Unmarshal_by. rewrite Hv.
    unfold decode_SubAccountDeleteResponse, decode_struct.
    destruct (decode_members_error SubAccountDeleteResponse_fields
                set_SubAccountDeleteResponse "SubAccountDeleteResponse" top
                ms1 ms2 "res" v FDelete_Res zero_SubAccountDeleteResponse eq_refl)
      as [e He].
    { intros ctx t. simpl.
      pose proof (decode_int_refuses ctx v (DeleteResponse_Res t)) as H.
      destruct (decode_int _ _ _). by apply H. }
    destruct (decode_members _ _ _ _ _ _) as [t e']. simpl in He. subst e'. by exists e.
Qed.

End WrongKind.

(** ** Further properties on the scripted services *)

(** The identifier 52, on the second of the three pages. *)
Lemma GetSubAccount_returns_the_target_witness :
  let run := GetSubAccount (decodeList := Unmarshal_ListResponse three_pages)
               5 client 0 52 three_pages_world in
  (None : option error) = None
  /\ SubAccountID (sub 52) = 52
  /\ exists n : nat,
       (n < 5)%nat
       /\ run.2 = after three_pages_world (page_requests client 0 0 (S n))
       /\ (exists pre post,
             outcome (decodeList := Unmarshal_ListResponse three_pages) 0
               three_pages_world n = (pre ++ sub 52 :: post, None)
             /\ no_match 52 pre)
       /\ forall i, (i < n)%nat ->
            (outcome (decodeList := Unmarshal_ListResponse three_pages) 0
               three_pages_world i).2 = None
            /\ no_match 52 (outcome (decodeList := Unmarshal_ListResponse three_pages) 0
                              three_pages_world i).1
            /\ full_page (outcome (decodeList := Unmarshal_ListResponse three_pages) 0
                            three_pages_world i).1.
Proof.
  apply (GetSubAccount_returns_the_target (decodeList := Unmarshal_ListResponse three_pages)
           client 0 52 5 three_pages_world (sub 52) None).
  vm_compute. reflexivity.
Defined.

(** An identifier that is on none of the three pages. *)
Lemma GetSubAccount_not_found_is_complete_witness :
  let run := GetSubAccount (decodeList := Unmarshal_ListResponse three_pages)
               5 client 0 999 three_pages_world in
  exists n : nat,
    (n < 5)%nat
    /\ run.2 = after three_pages_world (page_requests client 0 0 (S n))
    /\ forall i, (i <= n)%nat ->
         (outcome (decodeList := Unmarshal_ListResponse three_pages) 0
            three_pages_world i).2 = None
         /\ no_match 999 (outcome (decodeList := Unmarshal_ListResponse three_pages) 0
                            three_pages_world i).1
         /\ (full_page (outcome (decodeList := Unmarshal_ListResponse three_pages) 0
                          three_pages_world i).1 <-> (i < n)%nat).
Proof.
  apply (GetSubAccount_not_found_is_complete
           (decodeList := Unmarshal_ListResponse three_pages)
           client 0 999 5 three_pages_world).
  vm_compute. reflexivity.
Defined.

(** The connection times out on the second fetch. *)
Lemma GetSubAccount_error_is_the_fetch_error_witness :
  let run := GetSubAccount (decodeList := Unmarshal_ListResponse three_pages)
               5 client 0 999 failing_world in
  (None : option SubAccount) = None
  /\ exists n : nat,
       (n < 5)%nat
       /\ (outcome (decodeList := Unmarshal_ListResponse three_pages) 0 failing_world n).2
          = Some "Error getting subaccounts for account 0: i/o timeout"
       /\ run.2 = after failing_world (page_requests client 0 0 (S n))
       /\ forall i, (i < n)%nat ->
            (outcome (decodeList := Unmarshal_ListResponse three_pages) 0
               failing_world i).2 = None
            /\ no_match 999 (outcome (decodeList := Unmarshal_ListResponse three_pages) 0
                               failing_world i).1
            /\ full_page (outcome (decodeList := Unmarshal_ListResponse three_pages) 0
                            failing_world i).1.
Proof.
  apply (GetSubAccount_error_is_the_fetch_error
           (decodeList := Unmarshal_ListResponse three_pages)
           client 0 999 5 failing_world None
           "Error getting subaccounts for account 0: i/o timeout").
  vm_compute. reflexivity.
Defined.

Lemma GetSubAccount_asks_no_page_twice_witness :
  exists rs : list Request,
    (GetSubAccount (decodeList := Unmarshal_ListResponse three_pages)
       3 client 0 999 three_pages_world).2 = after three_pages_world rs
    /\ NoDup rs.
Proof.
  apply (GetSubAccount_asks_no_page_twice
           (decodeList := Unmarshal_ListResponse three_pages)
           client 0 999 3 three_pages_world).
  vm_compute. discriminate.
Defined.

(** A scan answered with the result code 9413 and no list. *)
Lemma page_fetch_ignores_res_witness :
  (forall pageNum,
      (sendListSubAccountsRequest (decodeList := Unmarshal_ListResponse [refused])
         client 0 pageNum refusing_world).1 = ([], None))
  /\ (@nil SubAccount = [] ->
      forall fuel,
        GetSubAccount (decodeList := Unmarshal_ListResponse [refused])
          (S fuel) client 0 7 refusing_world
        = (Some (None, None), after refusing_world (page_requests client 0 0 1))).
Proof.
  apply (page_fetch_ignores_res (decodeList := Unmarshal_ListResponse [refused])
           client 0 7 refusing_world {| Body := render refused; ReadErr := None |}
           [] 9413).
  - reflexivity.
  - vm_compute. reflexivity.
Defined.

(** The service cannot be reached. *)
Lemma transport_failure_is_wrapped_witness :
  (AddSubAccount (decodeAdd := Unmarshal_AddResponse []) client payload_x
     unreachable_world).1
  = (None, Some "Error adding subaccount x: connection refused")
  /\ (DeleteSubAccount (decodeDelete := Unmarshal_DeleteResponse []) client 7
        unreachable_world).1
     = Some "Error deleting subaccount id: 7: connection refused"
  /\ (GetSubAccount (decodeList := Unmarshal_ListResponse []) 1 client 12 7
        unreachable_world).1
     = Some (None, Some "Error getting subaccounts for account 12: connection refused").
Proof.
  destruct (transport_failure_is_wrapped (decodeAdd := Unmarshal_AddResponse [])
              (decodeList := Unmarshal_ListResponse [])
              (decodeDelete := Unmarshal_DeleteResponse [])
              client unreachable_world "connection refused" eq_refl)
    as (Hadd & _ & Hdelete & Hget).
  split_and!; [apply (Hadd payload_x)|apply (Hdelete 7)|apply (Hget 0%nat 12 7)].
Defined.

(** The creation of the specification's example. *)
Lemma AddSubAccount_response_or_error_witness :
  let '(result, err) :=
    (AddSubAccount (decodeAdd := Unmarshal_AddResponse [created]) client payload_x
       (fresh (fun _ => ok created))).1 in
  (is_Some result <-> err = None)
  /\ (forall r, result = Some r ->
        AddResponse_Res r = 0
        /\ exists resp, ok created = PostOk resp
                        /\ json_Unmarshal (Unmarshal := Unmarshal_AddResponse [created])
                             (Body resp) = inl r).
Proof.
  pose proof (AddSubAccount_response_or_error (decodeAdd := Unmarshal_AddResponse [created])
                client payload_x (fresh (fun _ => ok created))) as H.
  destruct (AddSubAccount _ _ _).1 as [result err].
  destruct H as [H1 H2]. split; [exact H1|].
  intros r Hr. destruct (H2 r Hr) as (Hres & resp & Hresp & Hdec).
  split; [exact Hres|]. exists resp. by split.
Defined.

Lemma form_fields_are_single_valued_witness :
  (AddSubAccount_values payload_full !! "parent_id" = Some ["12"] ->
   length ["12"] = 1%nat)
  /\ (sendListSubAccountsRequest_values 12 0 !! "account_id" = Some ["12"] ->
      length ["12"] = 1%nat).
Proof.
  destruct (form_fields_are_single_valued "parent_id" ["12"]) as [Hadd _].
  destruct (form_fields_are_single_valued "account_id" ["12"]) as [_ Hlist].
  split; [apply (Hadd payload_full)|apply (Hlist 12 0)].
Defined.

(** The service answers every request with the empty object. *)
Lemma empty_answer_is_success_witness :
  (AddSubAccount (decodeAdd := Unmarshal_AddResponse [Object []]) client payload_x
     empty_object_world).1
  = (Some {| AddResponse_SubAccount := {| SubAccountID := 0; EmbeddedPayload := None |};
             AddResponse_Res := 0 |}, None)
  /\ (sendListSubAccountsRequest (decodeList := Unmarshal_ListResponse [Object []])
        client 0 0 empty_object_world).1 = ([], None)
  /\ (DeleteSubAccount (decodeDelete := Unmarshal_DeleteResponse [Object []]) client 7
        empty_object_world).1 = None.
Proof.
  destruct (empty_answer_is_success (parse_among [Object []]) UnmarshalTypeError_Error client
              empty_object_world {| Body := render (Object []); ReadErr := None |}
              (Object []) eq_refl eq_refl) as (Hadd & Hlist & Hdelete).
  split_and!.
  - apply (Hadd (or_intror (ex_intro _ [] (conj eq_refl (Forall_nil_2 _))))).
  - apply (Hlist (or_intror (ex_intro _ [] (conj eq_refl (Forall_nil_2 _))))).
  - apply (Hdelete (or_intror (ex_intro _ [] (conj eq_refl (Forall_nil_2 _))))).
Defined.

(** The service sends the result code as a string. *)
Lemma res_of_the_wrong_kind_is_a_parse_error_witness :
  exists e,
    (DeleteSubAccount (decodeDelete := Unmarshal_DeleteResponse [quoted_res]) client 7
       quoted_res_world).1
    = Some ("Error parsing delete account JSON response for subaccount id: "
            +:+ Itoa 7 +:+ ": " +:+ UnmarshalTypeError_Error e).
Proof.
  destruct (res_of_the_wrong_kind_is_a_parse_error (parse_among [quoted_res])
              UnmarshalTypeError_Error client quoted_res_world
              {| Body := render quoted_res; ReadErr := None |} [] [] (Str "0")
              eq_refl eq_refl) as (_ & _ & Hdelete); [done|done|].
  apply (Hdelete 7).
Defined.
